(** * Patient record and report views (api/views/base.py, api/views/report.py)

    A shallow embedding of the request handlers of the two view modules and
    the properties they satisfy.  The handlers are thin glue over a web
    framework and an object-document mapper, so the embedding has three layers:

    - the Python values the handlers manipulate (path arguments, request
      dictionaries, exceptions) and the built-in [int];
    - the handlers themselves, written in a state-and-exception monad over an
      abstract back end (the class attributes [model] and [serializer_class] of
      [BasePatientView], the [Report] document class and its serializers);
    - an in-memory back end against which the functional properties are
      stated, and the page-number pagination of the framework. *)

From stdpp Require Import gmap strings list sorting pretty.
From Stdlib Require Import ZArith Lia Ascii.

(** ** Python values *)

Module Py.

(** JSON-like scalar values found in request bodies and document fields. *)
Inductive value :=
| VNone
| VBool (b : bool)
| VInt (z : Z)
| VStr (s : string).

#[global] Instance value_eq_dec : EqDecision value.
Proof. solve_decision. Defined.

(** A dictionary with string keys: [request.data], [validated_data], the
    fields of a document. *)
Abbreviation Data := (gmap string value).

(** A URL path argument reaches a view either as an [int] (route converter
    [<int:...>]) or as a [str]; [validate_paziente_id] is written for both
    (it is called again on its own result in [put]). *)
Inductive PathArg :=
| AInt (z : Z)
| AStr (s : string).

(** Exceptions, all of them subclasses of Python's [Exception].
    [ValidationError] and [NotFound] are the classes of
    [rest_framework.exceptions]; [OtherException] stands for every other
    class (database errors, the mapper's own validation error, ...). *)
Inductive exn :=
| ValueError (msg : string)
| ValidationError (detail : string)
| NotFound (detail : string)
| OtherException (cls msg : string).

(** [str(e)].  The detail of a [ValidationError] built from one string is a
    one-element list of [ErrorDetail], printed with its [repr]. *)
Definition str (e : exn) : string :=
  match e with
  | ValueError m => m
  | ValidationError d => "[ErrorDetail(string='" +:+ d +:+ "', code='invalid')]"
  | NotFound d => d
  | OtherException _ m => m
  end.

(** *** The built-in [int] on strings (base 10, ASCII input)

    Surrounding white space is dropped, one sign is allowed, digits may be
    grouped by single underscores, and more than 4300 digits are refused.
    The model covers texts of ASCII characters only: the digits and spaces
    beyond ASCII that [int] also accepts are outside of it. *)

(** The white space that [int] drops around an ASCII text: tab, line feed,
    vertical tab, form feed, carriage return (codes 9 to 13) and the space
    (code 32).  The separators with the codes 28 to 31 are kept, and make the
    text an invalid literal. *)
Definition is_space (c : ascii) : bool :=
  let n := nat_of_ascii c in
  (Nat.leb 9 n && Nat.leb n 13) || Nat.eqb n 32.

Definition digit_of (c : ascii) : option Z :=
  let n := nat_of_ascii c in
  if Nat.leb 48 n && Nat.leb n 57 then Some (Z.of_nat (n - 48)) else None.

Fixpoint lstrip (s : list ascii) : list ascii :=
  match s with
  | c :: s' => if is_space c then lstrip s' else s
  | [] => []
  end.

Definition strip (s : list ascii) : list ascii :=
  rev (lstrip (rev (lstrip s))).

(** [digits acc n after_digit s]: value and number of digits of [s]; an
    underscore is accepted only between two digits. *)
Fixpoint digits (acc : Z) (n : nat) (after_digit : bool) (s : list ascii)
  : option (Z * nat) :=
  match s with
  | [] => if after_digit then Some (acc, n) else None
  | c :: s' =>
      if Ascii.eqb c "_"%char
      then (if after_digit then digits acc n false s' else None)
      else match digit_of c with
           | Some d => digits (10 * acc + d)%Z (S n) true s'
           | None => None
           end
  end.

Definition max_str_digits : nat := 4300.

Definition int_of_string (s : string) : option Z :=
  let cs := strip (String.list_ascii_of_string s) in
  let '(sign, ds) :=
    match cs with
    | c :: r =>
        if Ascii.eqb c "+"%char then (1%Z, r)
        else if Ascii.eqb c "-"%char then ((-1)%Z, r)
        else (1%Z, cs)
    | [] => (1%Z, cs)
    end in
  match digits 0 0 false ds with
  | Some (v, n) => if Nat.ltb max_str_digits n then None else Some (sign * v)%Z
  | None => None
  end.

(** [int(x)] for a path argument. *)
Definition int (a : PathArg) : exn + Z :=
  match a with
  | AInt z => inr z
  | AStr s =>
      match int_of_string s with
      | Some z => inr z
      | None => inl (ValueError ("invalid literal for int() with base 10: '" +:+ s +:+ "'"))
      end
  end.

(** Truth value of a path argument ([if report_id:]). *)
Definition truthy (a : PathArg) : bool :=
  match a with
  | AInt z => negb (z =? 0)%Z
  | AStr s => negb (String.eqb s "")
  end.

(** The text of a path argument inside an f-string. *)
Definition fmt (a : PathArg) : string :=
  match a with
  | AInt z => pretty z
  | AStr s => s
  end.

End Py.
Import Py.

(** ** Documents, requests and responses *)

(** A document instance in Python: its primary key ([None] until it has been
    saved) and its fields. *)
Record Document (F : Type) := mkDocument { pk : option nat; doc : F }.
Arguments mkDocument {F} pk doc.
Arguments pk {F} d.
Arguments doc {F} d.

(** An instance of [self.model], a per-section patient record. *)
Abbreviation Instance := (Document Data).

(** The fields of a [Report] that the views touch: the three constructor
    arguments of [ReportView.post] and the per-section references that
    [setattr(report, field, record)] assigns. *)
Record ReportFields := mkReport {
  paziente_id : Z;
  operatore_id : option value;
  report_id : Z;
  section_refs : gmap string Instance
}.

Abbreviation ReportDocument := (Document ReportFields).

(** [setattr(report, field, record)] *)
Definition setattr_ref (report : ReportDocument) (field : string) (record : Instance) : ReportDocument :=
  let f := doc report in
  mkDocument (pk report)
    (mkReport (paziente_id f) (operatore_id f) (report_id f)
       (<[field := record]> (section_refs f))).

(** [setattr(instance, key, value)] *)
Definition setattr (instance : Instance) (key : string) (v : value) : Instance :=
  mkDocument (pk instance) (<[key := v]> (doc instance)).

Record Request := mkRequest {
  data : Data;                        (* request.data *)
  query_params : gmap string string   (* request.query_params *)
}.

Inductive SerializerClass := ReportSerializer | QuickReportSerializer.

(** What a serializer's [.data] holds.  The serializer classes are not part of
    the two view modules, so their output is kept symbolic: which serializer
    was applied to which object. *)
Inductive Json :=
| JRecord (instance : option Instance)
| JReport (cls : SerializerClass) (report : ReportDocument).

Inductive Body :=
| NoBody                                            (* Response(status=...) *)
| ErrorBody (msg : string)                          (* {"error": msg} *)
| ErrorsBody (errors : Data)                        (* serializer.errors *)
| DataBody (d : Json)                               (* serializer.data *)
| ListBody (l : list Json)                          (* serializer.data, many=True *)
| PageBody (count : nat) (next previous : option Z) (results : list Json).

Record Response := mkResponse { body : Body; status : Z }.

Module status.
Definition HTTP_200_OK : Z := 200.
Definition HTTP_201_CREATED : Z := 201.
Definition HTTP_204_NO_CONTENT : Z := 204.
Definition HTTP_400_BAD_REQUEST : Z := 400.
Definition HTTP_404_NOT_FOUND : Z := 404.
Definition HTTP_500_INTERNAL_SERVER_ERROR : Z := 500.
End status.
Import status.

(** ** The monad of the handlers

    A handler runs against a world [W] (the database) and the log of
    [logger.error]; a step either returns a value or raises an exception. *)

Record Env (W : Type) := mkEnv { db : W; log : list string }.
Arguments mkEnv {W} db log.
Arguments db {W} e.
Arguments log {W} e.

Definition M (W A : Type) : Type := Env W -> (exn + A) * Env W.

(** An operation of the back end: it sees and changes the database only. *)
Definition Op (W A : Type) : Type := W -> (exn + A) * W.

Section Monad.
Context {W : Type}.

Definition ret {A} (a : A) : M W A := fun e => (inr a, e).

Definition raise {A} (x : exn) : M W A := fun e => (inl x, e).

Definition bind {A B} (m : M W A) (k : A -> M W B) : M W B :=
  fun e => match m e with
           | (inr a, e') => k a e'
           | (inl x, e') => (inl x, e')
           end.

(** [try: m except ...: h] *)
Definition try_except {A} (m : M W A) (h : exn -> M W A) : M W A :=
  fun e => match m e with
           | (inr a, e') => (inr a, e')
           | (inl x, e') => h x e'
           end.

(** A call into the back end. *)
Definition call {A} (op : Op W A) : M W A :=
  fun e => let '(r, w) := op (db e) in (r, mkEnv w (log e)).

(** A pure computation that may raise. *)
Definition lift {A} (r : exn + A) : M W A :=
  fun e => (r, e).

(** [logger.error(msg)] *)
Definition logger_error (msg : string) : M W unit :=
  fun e => (inr tt, mkEnv (db e) (log e ++ [msg])).

(** [for x in l: ...] collecting the results (a many=True serializer). *)
Fixpoint for_each {A B} (f : A -> M W B) (l : list A) : M W (list B) :=
  match l with
  | [] => ret []
  | x :: l' => bind (f x) (fun y => bind (for_each f l') (fun ys => ret (y :: ys)))
  end.

(** The [except] clauses of a view method return a response, after logging
    or not. *)
Definition answer (r : Response) : Env W -> Response * Env W :=
  fun e => (r, e).

Definition logged (msg : string) (r : Response) : Env W -> Response * Env W :=
  fun e => (r, mkEnv (db e) (log e ++ [msg])).

(** The outermost [try] of a view method: the body returns a response or
    raises, and every exception is dispatched to an [except] clause. *)
Definition respond (body : M W Response)
  (handler : exn -> Env W -> Response * Env W) : Env W -> Response * Env W :=
  fun e => match body e with
           | (inr r, e') => (r, e')
           | (inl x, e') => handler x e'
           end.

End Monad.

Notation "'let*' x ':=' m 'in' k" := (bind m (fun x => k))
  (at level 10, x pattern, m at level 100, k at level 200).

(** ** Page-number pagination of the framework

    [rest_framework.pagination.PageNumberPagination] over the paginator of the
    web framework, as far as the views configure and use it. *)

Module Pagination.

Record PageNumberPagination := mkPagination {
  page_size : option Z;
  page_query_param : string;
  page_size_query_param : option string;
  max_page_size : option Z;
  last_page_strings : list string
}.

(** One page of a paginator: [self.page] after [paginate_queryset]. *)
Record Page (A : Type) := mkPage {
  object_list : list A;   (* the items of this page *)
  number : Z;             (* the page number, from 1 *)
  count : nat;            (* paginator.count *)
  num_pages : Z           (* paginator.num_pages *)
}.
Arguments mkPage {A} object_list number count num_pages.
Arguments object_list {A} p.
Arguments number {A} p.
Arguments count {A} p.
Arguments num_pages {A} p.

(** [_positive_int(integer_string, strict, cutoff)]; [None] is its
    [ValueError]. *)
Definition _positive_int (integer_string : string) (strict : bool)
  (cutoff : option Z) : option Z :=
  match int_of_string integer_string with
  | None => None
  | Some r =>
      if (r <? 0)%Z || ((r =? 0)%Z && strict) then None
      else match cutoff with
           | Some c => if (c =? 0)%Z then Some r else Some (Z.min r c)
           | None => Some r
           end
  end.

(** [get_page_size]: the query parameter when it is present and a positive
    integer (cut off at [max_page_size]), the configured [page_size]
    otherwise ([KeyError] and [ValueError] are suppressed). *)
Definition get_page_size (p : PageNumberPagination) (request : Request) : option Z :=
  match page_size_query_param p with
  | Some param =>
      if String.eqb param "" then page_size p
      else match query_params request !! param with
           | Some v =>
               match _positive_int v true (max_page_size p) with
               | Some n => Some n
               | None => page_size p
               end
           | None => page_size p
           end
  | None => page_size p
  end.

(** [Paginator.num_pages], with no orphans and an empty first page allowed. *)
Definition paginator_num_pages (count : nat) (per_page : Z) : Z :=
  let hits := Z.max 1 (Z.of_nat count) in
  (hits + per_page - 1) / per_page.

(** [get_page_number]: the [page] parameter, 1 when it is missing or empty,
    the last page for one of [last_page_strings]. *)
Definition get_page_number (p : PageNumberPagination) (request : Request)
  (num_pages : Z) : PathArg :=
  match query_params request !! page_query_param p with
  | Some v =>
      if String.eqb v "" then AInt 1
      else if bool_decide (v ∈ last_page_strings p) then AInt num_pages
      else AStr v
  | None => AInt 1
  end.

Definition invalid_page_message : string := "Invalid page.".

(** [paginate_queryset]: [None] when pagination is off, the requested page
    otherwise; an invalid page number raises [NotFound]. *)
Definition paginate_queryset {A} (p : PageNumberPagination) (queryset : list A)
  (request : Request) : exn + option (Page A) :=
  match get_page_size p request with
  | None => inr None
  | Some per_page =>
      if (per_page =? 0)%Z then inr None
      else
        let count := length queryset in
        let num_pages := paginator_num_pages count per_page in
        match int (get_page_number p request num_pages) with
        | inl _ => inl (NotFound invalid_page_message)
        | inr number =>
            if (number <? 1)%Z then inl (NotFound invalid_page_message)
            else if (num_pages <? number)%Z then inl (NotFound invalid_page_message)
            else
              let bottom := ((number - 1) * per_page)%Z in
              let top := (bottom + per_page)%Z in
              let top := if (Z.of_nat count <=? top)%Z then Z.of_nat count else top in
              inr (Some (mkPage
                           (take (Z.to_nat (top - bottom)) (drop (Z.to_nat bottom) queryset))
                           number count num_pages))
        end
  end.

(** [paginator.get_paginated_response(data)]; the next and previous links are
    kept as page numbers. *)
Definition get_paginated_response {A} (page : Page A) (results : list Json) : Response :=
  mkResponse
    (PageBody (count page)
       (if (number page <? num_pages page)%Z then Some (number page + 1)%Z else None)
       (if (1 <? number page)%Z then Some (number page - 1)%Z else None)
       results)
    HTTP_200_OK.

End Pagination.

(** [class ReportPagination(PageNumberPagination)] *)
Definition ReportPagination : Pagination.PageNumberPagination :=
  {| Pagination.page_size := Some 10%Z;
     Pagination.page_query_param := "page";
     Pagination.page_size_query_param := Some "page_size";
     Pagination.max_page_size := Some 100%Z;
     Pagination.last_page_strings := ["last"] |}.

(** ** api/views/base.py *)

(** What a subclass of [BasePatientView] supplies through the class attributes
    [model] and [serializer_class], as operations on the database.  Every
    operation may raise. *)
Record PatientBackend (W : Type) := mkPatientBackend {
  (* self.model.__name__ *)
  model_name : string;
  (* self.model.objects(paziente_id=pid).first() *)
  objects_first : Z -> Op W (option Instance);
  (* self.model.objects(paziente_id=pid).count() *)
  objects_count : Z -> Op W nat;
  (* self.model with the keyword arguments of validated_data *)
  model_init : Data -> Op W Instance;
  (* instance.save() *)
  save : Instance -> Op W Instance;
  (* self.serializer_class(instance, data=data): is_valid(), then errors
     (left) or validated_data (right) *)
  is_valid : option Instance -> Data -> Op W (Data + Data);
  (* self.serializer_class(instance).data *)
  serializer_data : option Instance -> Op W Json
}.
Arguments model_name {W} p.
Arguments objects_first {W} p pid.
Arguments objects_count {W} p pid.
Arguments model_init {W} p validated_data.
Arguments save {W} p instance.
Arguments is_valid {W} p instance data.
Arguments serializer_data {W} p instance.

(** Truth value of a variable that holds a document or [None]: a document
    object is never empty (its length counts its fields, the primary key among
    them), so only [None] is false. *)
Definition is_true {F} (x : option (Document F)) : bool :=
  match x with
  | Some _ => true
  | None => false
  end.

Definition internal_server_error : Response :=
  mkResponse (ErrorBody "Internal server error") HTTP_500_INTERNAL_SERVER_ERROR.

Module BasePatientView.
Section BasePatientView.
Context {W : Type} (self : PatientBackend W).

Definition validate_paziente_id (paziente_id : PathArg) : M W Z :=
  try_except
    (let* pid := lift (int paziente_id) in
     if (pid <=? 0)%Z
     then raise (ValidationError "paziente_id must be positive")
     else ret pid)
    (fun e =>
       match e with
       | ValueError _ => raise (ValidationError "paziente_id must be a valid integer")
       | _ => raise e
       end).

Definition get_object (paziente_id : PathArg) : M W (option Instance) :=
  let* pid := validate_paziente_id paziente_id in
  try_except
    (call (objects_first self pid))
    (fun e =>
       let* _ := logger_error ("Error fetching " +:+ model_name self +:+ ": " +:+ str e) in
       raise e).

Definition check_exists (paziente_id : Z) : M W bool :=
  let* n := call (objects_count self paziente_id) in
  ret (Nat.ltb 0 n).

(** [get]: the [try] block, the [except] clauses, the method. *)
Definition get_try (request : Request) (paziente_id : PathArg) : M W Response :=
  let* instance := get_object paziente_id in
  if negb (is_true instance)
  then raise (NotFound (model_name self +:+ " not found for patient " +:+ fmt paziente_id))
  else
    let* d := call (serializer_data self instance) in
    ret (mkResponse (DataBody d) HTTP_200_OK).

Definition get_except (e : exn) : Env W -> Response * Env W :=
  match e with
  | ValidationError _ | NotFound _ =>
      answer (mkResponse (ErrorBody (str e)) HTTP_400_BAD_REQUEST)
  | _ =>
      logged ("Error in GET: " +:+ str e) internal_server_error
  end.

Definition get (request : Request) (paziente_id : PathArg)
  : Env W -> Response * Env W :=
  respond (get_try request paziente_id) get_except.

(** The two branches of [put] after the serializer accepted the data: the
    existing instance gets every validated field and is saved, or a new
    instance is built and saved.  Either way the variable [instance] holds the
    saved document afterwards. *)
Definition create_or_update (instance : option Instance) (validated_data : Data)
  : M W (option Instance) :=
  match instance with
  | Some i =>
      let i := map_fold (fun key v acc => setattr acc key v) i validated_data in
      let* i := call (save self i) in
      ret (Some i)
  | None =>
      let* i := call (model_init self validated_data) in
      let* i := call (save self i) in
      ret (Some i)
  end.

(** [put]: the [try] block, the [except] clauses, the method. *)
Definition put_try (request : Request) (paziente_id : PathArg) : M W Response :=
  let* pid := validate_paziente_id paziente_id in
  let* instance := get_object (AInt pid) in
  let data := <["paziente_id" := VInt pid]> (data request) in
  let* v := call (is_valid self instance data) in
  match v with
  | inl errors => ret (mkResponse (ErrorsBody errors) HTTP_400_BAD_REQUEST)
  | inr validated_data =>
      let* instance := create_or_update instance validated_data in
      let* d := call (serializer_data self instance) in
      ret (mkResponse (DataBody d)
             (if is_true instance then HTTP_200_OK else HTTP_201_CREATED))
  end.

Definition put_except (e : exn) : Env W -> Response * Env W :=
  match e with
  | ValidationError _ =>
      answer (mkResponse (ErrorBody (str e)) HTTP_400_BAD_REQUEST)
  | _ =>
      logged ("Error in PUT: " +:+ str e) internal_server_error
  end.

Definition put (request : Request) (paziente_id : PathArg)
  : Env W -> Response * Env W :=
  respond (put_try request paziente_id) put_except.

End BasePatientView.
End BasePatientView.

(** ** api/views/report.py *)

(** The [Report] document class and the two report serializers, as
    operations on the database.  Every operation may raise. *)
Record ReportBackend (W : Type) := mkReportBackend {
  (* Report.objects(paziente_id=..., report_id=...).first() *)
  Report_objects_first : PathArg -> PathArg -> Op W (option ReportDocument);
  (* Report.objects(paziente_id=...).order_by('-report_id') *)
  Report_objects_order_by : PathArg -> Op W (list ReportDocument);
  (* Report(paziente_id=..., operatore_id=..., report_id=...) *)
  Report_init : PathArg -> option value -> Z -> Op W ReportDocument;
  (* Report.get_next_report_id(paziente_id) *)
  get_next_report_id : PathArg -> Op W Z;
  (* report.get_latest_records() *)
  get_latest_records : ReportDocument -> Op W (list (string * option Instance));
  (* report.save() *)
  Report_save : ReportDocument -> Op W ReportDocument;
  (* report.delete() *)
  Report_delete : ReportDocument -> Op W unit;
  (* ReportSerializer(report).data, QuickReportSerializer(report).data *)
  Report_data : SerializerClass -> ReportDocument -> Op W Json
}.
Arguments Report_objects_first {W} r paziente_id report_id.
Arguments Report_objects_order_by {W} r paziente_id.
Arguments Report_init {W} r paziente_id operatore_id report_id.
Arguments get_next_report_id {W} r paziente_id.
Arguments get_latest_records {W} r report.
Arguments Report_save {W} r report.
Arguments Report_delete {W} r report.
Arguments Report_data {W} r cls report.

(** [any(latest_records.values())] *)
Definition any_values (latest_records : list (string * option Instance)) : bool :=
  existsb (fun kv => is_true (snd kv)) latest_records.

(** [for field, record in latest_records.items(): if record: setattr(...)] *)
Definition assign_references (report : ReportDocument)
  (latest_records : list (string * option Instance)) : ReportDocument :=
  foldl (fun r kv =>
           match snd kv with
           | Some record => setattr_ref r (fst kv) record
           | None => r
           end)
    report latest_records.

Module ReportView.
Section ReportView.
Context {W : Type} (Report : ReportBackend W).

Definition pagination_class := ReportPagination.

Definition get_paginated_response (request : Request) (data : list ReportDocument)
  (serializer_class : SerializerClass) : M W Response :=
  let paginator := pagination_class in
  let* page := lift (Pagination.paginate_queryset paginator data request) in
  match page with
  | Some page =>
      let* d := for_each (fun r => call (Report_data Report serializer_class r))
                  (Pagination.object_list page) in
      ret (Pagination.get_paginated_response page d)
  | None =>
      let* d := for_each (fun r => call (Report_data Report serializer_class r)) data in
      ret (mkResponse (ListBody d) HTTP_200_OK)
  end.

(** [get]: the [try] block, the [except] clauses, the method.  The first
    branch is taken when [report_id] is given and true ([if report_id:]), the
    second otherwise. *)
Definition get_try (request : Request) (paziente_id : PathArg)
  (report_id : option PathArg) : M W Response :=
  let get_all :=
    let* reports := call (Report_objects_order_by Report paziente_id) in
    get_paginated_response request reports ReportSerializer in
  match report_id with
  | Some rid =>
      if truthy rid then
        let* report := call (Report_objects_first Report paziente_id rid) in
        match report with
        | None =>
            raise (NotFound ("Report " +:+ fmt rid +:+ " not found for patient "
                             +:+ fmt paziente_id))
        | Some r =>
            let* d := call (Report_data Report ReportSerializer r) in
            ret (mkResponse (DataBody d) HTTP_200_OK)
        end
      else get_all
  | None => get_all
  end.

Definition get_except (e : exn) : Env W -> Response * Env W :=
  match e with
  | NotFound _ =>
      answer (mkResponse (ErrorBody (str e)) HTTP_404_NOT_FOUND)
  | _ =>
      logged ("Error in Report GET: " +:+ str e) internal_server_error
  end.

Definition get (request : Request) (paziente_id : PathArg)
  (report_id : option PathArg) : Env W -> Response * Env W :=
  respond (get_try request paziente_id report_id) get_except.

(** [post]: the [try] block, the [except] clauses, the method. *)
Definition post_try (request : Request) (paziente_id : PathArg) : M W Response :=
  let operatore_id := data request !! "operatore_id" in
  let* next_id := call (get_next_report_id Report paziente_id) in
  let* report := call (Report_init Report paziente_id operatore_id next_id) in
  let* latest_records := call (get_latest_records Report report) in
  if negb (any_values latest_records)
  then raise (ValidationError "No records found for this patient")
  else
    let report := assign_references report latest_records in
    let* report := call (Report_save Report report) in
    let* d := call (Report_data Report ReportSerializer report) in
    ret (mkResponse (DataBody d) HTTP_201_CREATED).

Definition post_except (e : exn) : Env W -> Response * Env W :=
  match e with
  | ValidationError _ =>
      answer (mkResponse (ErrorBody (str e)) HTTP_400_BAD_REQUEST)
  | _ =>
      logged ("Error in Report POST: " +:+ str e) internal_server_error
  end.

Definition post (request : Request) (paziente_id : PathArg)
  : Env W -> Response * Env W :=
  respond (post_try request paziente_id) post_except.

(** [delete]: the [try] block, the [except] clauses, the method. *)
Definition delete_try (request : Request) (paziente_id report_id : PathArg)
  : M W Response :=
  let* report := call (Report_objects_first Report paziente_id report_id) in
  match report with
  | None =>
      raise (NotFound ("Report " +:+ fmt report_id +:+ " not found for patient "
                       +:+ fmt paziente_id))
  | Some r =>
      let* _ := call (Report_delete Report r) in
      ret (mkResponse NoBody HTTP_204_NO_CONTENT)
  end.

Definition delete_except (e : exn) : Env W -> Response * Env W :=
  match e with
  | NotFound _ =>
      answer (mkResponse (ErrorBody (str e)) HTTP_404_NOT_FOUND)
  | _ =>
      logged ("Error in Report DELETE: " +:+ str e) internal_server_error
  end.

Definition delete (request : Request) (paziente_id report_id : PathArg)
  : Env W -> Response * Env W :=
  respond (delete_try request paziente_id report_id) delete_except.

End ReportView.
End ReportView.

Module QuickReportView.
Section QuickReportView.
Context {W : Type} (Report : ReportBackend W).

Definition pagination_class := ReportPagination.

(** [get]: the [try] block, the [except] clause, the method. *)
Definition get_try (request : Request) (paziente_id : PathArg) : M W Response :=
  let* reports := call (Report_objects_order_by Report paziente_id) in
  let paginator := pagination_class in
  let* page := lift (Pagination.paginate_queryset paginator reports request) in
  match page with
  | Some page =>
      let* d := for_each (fun r => call (Report_data Report QuickReportSerializer r))
                  (Pagination.object_list page) in
      ret (Pagination.get_paginated_response page d)
  | None =>
      let* d := for_each (fun r => call (Report_data Report QuickReportSerializer r))
                  reports in
      ret (mkResponse (ListBody d) HTTP_200_OK)
  end.

Definition get_except (e : exn) : Env W -> Response * Env W :=
  logged ("Error in QuickReport GET: " +:+ str e) internal_server_error.

Definition get (request : Request) (paziente_id : PathArg)
  : Env W -> Response * Env W :=
  respond (get_try request paziente_id) get_except.

End QuickReportView.
End QuickReportView.

(** ** An in-memory back end

    The database as two collections in storage order.  A fetched document
    carries its position in the collection as primary key; saving a document
    without a key appends it, saving one with a key replaces the stored
    fields, deleting removes the position. *)

Module Mem.

Record World := mkWorld {
  records : list Data;            (* the collection of self.model *)
  reports : list ReportFields     (* the collection of Report *)
}.

(** What the view modules leave to other modules of the repository: the name
    of the model, the validation of the serializer (errors on the left,
    validated data on the right) and the per-section lookup of a report. *)
Record Config := mkConfig {
  name : string;
  validate : option Instance -> Data -> Data + Data;
  latest_records : World -> ReportDocument -> list (string * option Instance)
}.

(** [objects(...).first()]: the first stored document that matches, with its
    position. *)
Definition first {F} (P : F -> Prop) `{forall x, Decision (P x)} (l : list F)
  : option (Document F) :=
  match list_find P l with
  | Some (i, f) => Some (mkDocument (Some i) f)
  | None => None
  end.

Definition stored {F} (l : list F) : list (Document F) :=
  imap (fun i f => mkDocument (Some i) f) l.

Definition of_patient (pid : Z) (d : Data) : Prop :=
  d !! "paziente_id" = Some (VInt pid).

#[global] Instance of_patient_dec pid d : Decision (of_patient pid d).
Proof. unfold of_patient. apply _. Defined.

Definition report_of (pid : Z) (r : ReportFields) : Prop :=
  paziente_id r = pid.

#[global] Instance report_of_dec pid r : Decision (report_of pid r).
Proof. unfold report_of. apply _. Defined.

Definition report_at (pid rid : Z) (r : ReportFields) : Prop :=
  paziente_id r = pid /\ report_id r = rid.

#[global] Instance report_at_dec pid rid r : Decision (report_at pid rid r).
Proof. unfold report_at. apply _. Defined.

(** [order_by('-report_id')] *)
Definition newer_first (a b : ReportDocument) : Prop :=
  (report_id (doc b) <= report_id (doc a))%Z.

#[global] Instance newer_first_dec a b : Decision (newer_first a b).
Proof. unfold newer_first. apply _. Defined.

Definition patient (cfg : Config) : PatientBackend World :=
  {| model_name := name cfg;
     objects_first pid w := (inr (first (of_patient pid) (records w)), w);
     objects_count pid w := (inr (length (filter (of_patient pid) (records w))), w);
     model_init validated_data w := (inr (mkDocument None validated_data), w);
     save instance w :=
       match pk instance with
       | Some i =>
           (inr instance, mkWorld (<[i := doc instance]> (records w)) (reports w))
       | None =>
           (inr (mkDocument (Some (length (records w))) (doc instance)),
            mkWorld (records w ++ [doc instance]) (reports w))
       end;
     is_valid instance data w := (inr (validate cfg instance data), w);
     serializer_data instance w := (inr (JRecord instance), w) |}.

(** [objects(paziente_id=pid).order_by('-report_id')]: the stored reports of
    the patient, sorted by decreasing report identifier. *)
Definition newest_first (pid : Z) (l : list ReportFields) : list ReportDocument :=
  merge_sort newer_first (filter (fun r => report_of pid (doc r)) (stored l)).

(** The report identifiers stored for a patient. *)
Definition report_ids (pid : Z) (l : list ReportFields) : list Z :=
  report_id <$> filter (report_of pid) l.

(** Modelled from the spec: [Report.get_next_report_id] is defined with the
    [Report] document class, outside the two view modules.  The report
    identifier "is assigned by a monotonic-per-patient counter obtained from
    existing records": one more than the largest identifier stored for the
    patient, 1 for the first report. *)
Definition next_report_id (pid : Z) (l : list ReportFields) : Z :=
  (foldr Z.max 0 (report_ids pid l) + 1)%Z.

Definition report (cfg : Config) : ReportBackend World :=
  {| Report_objects_first paziente_id report_id w :=
       match int paziente_id, int report_id with
       | inr pid, inr rid => (inr (first (report_at pid rid) (reports w)), w)
       | inl e, _ => (inl e, w)
       | _, inl e => (inl e, w)
       end;
     Report_objects_order_by paziente_id w :=
       match int paziente_id with
       | inr pid => (inr (newest_first pid (reports w)), w)
       | inl e => (inl e, w)
       end;
     Report_init paziente_id operatore_id report_id w :=
       match int paziente_id with
       | inr pid => (inr (mkDocument None (mkReport pid operatore_id report_id ∅)), w)
       | inl e => (inl e, w)
       end;
     get_next_report_id paziente_id w :=
       match int paziente_id with
       | inr pid => (inr (next_report_id pid (reports w)), w)
       | inl e => (inl e, w)
       end;
     get_latest_records r w := (inr (latest_records cfg w r), w);
     Report_save r w :=
       match pk r with
       | Some i => (inr r, mkWorld (records w) (<[i := doc r]> (reports w)))
       | None =>
           (inr (mkDocument (Some (length (reports w))) (doc r)),
            mkWorld (records w) (reports w ++ [doc r]))
       end;
     Report_delete r w :=
       match pk r with
       | Some i => (inr tt, mkWorld (records w) (delete i (reports w)))
       | None => (inr tt, w)
       end;
     Report_data cls r w := (inr (JReport cls r), w) |}.

End Mem.

(** ** Notions used by the properties *)

(** A path argument is a valid patient identifier when [int] accepts it and
    the integer is positive. *)
Definition valid_patient_id (paziente_id : PathArg) : Prop :=
  exists pid, int paziente_id = inr pid /\ (0 < pid)%Z.


(** The items of a list response, paginated or not. *)
Definition items_of (r : Response) : option (list Json) :=
  match body r with
  | PageBody _ _ _ results => Some results
  | ListBody l => Some l
  | _ => None
  end.

(** The state after [logger.error(msg)]. *)
Definition with_log {W} (e : Env W) (msg : string) : Env W :=
  mkEnv (db e) (log e ++ [msg]).

(** The key of a report: patient identifier and report identifier. *)
Definition report_key (r : ReportFields) : Z * Z :=
  (paziente_id r, report_id r).

(** The invariant of the report collection: no two stored reports share a
    key, and every report identifier is positive. *)
Definition reports_wf (l : list ReportFields) : Prop :=
  NoDup (report_key <$> l) /\ Forall (fun r => (0 < report_id r)%Z) l.

#[global] Instance reports_wf_dec l : Decision (reports_wf l).
Proof. unfold reports_wf. apply _. Defined.

Definition strictly_decreasing (l : list Z) : Prop :=
  StronglySorted (fun a b => (b < a)%Z) l.

(** The reports of a patient, newest first: [all] holds every stored report
    of the patient once, each one with the position it is stored at, in
    strictly decreasing order of report identifier. *)
Definition newest_first_of (pid : Z) (reports : list ReportFields)
  (all : list ReportDocument) : Prop :=
  doc <$> all ≡ₚ filter (fun r => paziente_id r = pid) reports /\
  Forall (fun d => exists i, pk d = Some i /\ reports !! i = Some (doc d)) all /\
  strictly_decreasing ((fun d => report_id (doc d)) <$> all).

(** Page [k] of a list cut into pages of [n] items: the items at the
    positions from [(k - 1) * n], at most [n] of them. *)
Definition page_items {A} (n k : Z) (all : list A) : list A :=
  take (Z.to_nat n) (drop (Z.to_nat ((k - 1) * n)) all).

(** The report that [ReportView.post] builds before it looks up the sections. *)
Definition draft_report (request : Request) (pid : Z) (w : Mem.World) : ReportDocument :=
  mkDocument None
    (mkReport pid (data request !! "operatore_id")
       (Mem.next_report_id pid (Mem.reports w)) ∅).

(** The databases that the writing methods (PUT on records, POST and DELETE
    on reports) produce from the empty database. *)
Inductive reachable (cfg : Mem.Config) : Mem.World -> Prop :=
| reachable_empty :
    reachable cfg (Mem.mkWorld [] [])
| reachable_put request patient e :
    reachable cfg (db e) ->
    reachable cfg (db (snd (BasePatientView.put (Mem.patient cfg) request patient e)))
| reachable_post request patient e :
    reachable cfg (db e) ->
    reachable cfg (db (snd (ReportView.post (Mem.report cfg) request patient e)))
| reachable_delete request patient report e :
    reachable cfg (db e) ->
    reachable cfg (db (snd (ReportView.delete (Mem.report cfg) request patient report e))).

(** A back end whose database cannot be reached: every operation raises. *)
Module Unavailable.

Definition failure : exn := OtherException "ConnectionFailure" "connection refused".

Definition patient : PatientBackend unit :=
  {| model_name := "Anagrafica";
     objects_first _ w := (inl failure, w);
     objects_count _ w := (inl failure, w);
     model_init _ w := (inl failure, w);
     save _ w := (inl failure, w);
     is_valid _ _ w := (inl failure, w);
     serializer_data _ w := (inl failure, w) |}.

Definition report : ReportBackend unit :=
  {| Report_objects_first _ _ w := (inl failure, w);
     Report_objects_order_by _ w := (inl failure, w);
     Report_init _ _ _ w := (inl failure, w);
     get_next_report_id _ w := (inl failure, w);
     get_latest_records _ w := (inl failure, w);
     Report_save _ w := (inl failure, w);
     Report_delete _ w := (inl failure, w);
     Report_data _ _ w := (inl failure, w) |}.

End Unavailable.

(** Concrete data for the examples: a serializer that accepts every body and
    keeps its fields, one section ("anagrafica") whose latest record is the
    patient's record in the model collection. *)
Module Sample.

Definition cfg : Mem.Config :=
  {| Mem.name := "Anagrafica";
     Mem.validate := fun _ d => inr d;
     Mem.latest_records := fun w r =>
       [("anagrafica", Mem.first (Mem.of_patient (paziente_id (doc r))) (Mem.records w))] |}.

(** A body that names another patient than the URL does. *)
Definition request : Request :=
  mkRequest (<["nome" := VStr "Rossi"]> (<["paziente_id" := VInt 99]> ∅)) ∅.

Definition empty : Env Mem.World := mkEnv (Mem.mkWorld [] []) [].

(** The record that [put] stores for patient 7 from [request]. *)
Definition record7 : Data :=
  <["paziente_id" := VInt 7]> (data request).

Definition report7 (rid : Z) : ReportFields :=
  mkReport 7 None rid ∅.

(** Patient 7 with a record and the reports 1, 2 and 3. *)
Definition three_reports : Env Mem.World :=
  mkEnv (Mem.mkWorld [record7] [report7 1; report7 2; report7 3]) [].

(** Collections outside the invariant: two stored reports with the same key,
    a report with the identifier 0. *)
Definition duplicated : Env Mem.World :=
  mkEnv (Mem.mkWorld [record7] [report7 1; report7 1]) [].

Definition with_report_zero : Env Mem.World :=
  mkEnv (Mem.mkWorld [record7] [report7 0; report7 1]) [].

(** Patient 7 with twelve reports, 1 to 12. *)
Definition twelve_reports : Env Mem.World :=
  mkEnv (Mem.mkWorld [record7] (report7 <$> (Z.of_nat <$> seq 1 12))) [].


End Sample.

(** Further concrete data: a serializer that requires the field "nome", a
    body without it, a stored record with a field that the sample body does
    not carry, and requests that ask for a page. *)
Module Cases.

Definition strict : Mem.Config :=
  {| Mem.name := "Anagrafica";
     Mem.validate := fun _ d =>
       match d !! "nome" with
       | Some _ => inr d
       | None => inl (<["nome" := VStr "This field is required."]> ∅)
       end;
     Mem.latest_records := Mem.latest_records Sample.cfg |}.

Definition nameless : Request := mkRequest ∅ ∅.

Definition older_record7 : Data :=
  <["eta" := VInt 40]> (<["paziente_id" := VInt 7]> ∅).

Definition with_older_record : Env Mem.World :=
  mkEnv (Mem.mkWorld [older_record7] []) [].

Definition page (n : string) : Request :=
  mkRequest ∅ (<["page" := n]> ∅).

(** Two sections, one with a record and one without. *)
Definition two_sections : Mem.Config :=
  {| Mem.name := "Anagrafica";
     Mem.validate := fun _ d => inr d;
     Mem.latest_records := fun w r =>
       [("anagrafica", Mem.first (Mem.of_patient (paziente_id (doc r))) (Mem.records w));
        ("terapia", None)] |}.

(** Patients 7 and 8 with reports of their own. *)
Definition two_patients : Env Mem.World :=
  mkEnv (Mem.mkWorld [Sample.record7]
           [Sample.report7 1; mkReport 8 None 1 ∅; Sample.report7 2; mkReport 8 None 2 ∅])
    [].

End Cases.

(** * Properties *)

Example int_of_string_spaces : int_of_string " 42 " = Some 42%Z.
Proof. reflexivity. Qed.
Example int_of_string_sign : int_of_string "-7" = Some (-7)%Z.
Proof. reflexivity. Qed.
Example int_of_string_underscore : int_of_string "1_000" = Some 1000%Z.
Proof. reflexivity. Qed.
Example int_of_string_two_underscores : int_of_string "1__0" = None.
Proof. reflexivity. Qed.
Example int_of_string_letters : int_of_string "abc" = None.
Proof. reflexivity. Qed.
Example int_of_string_empty : int_of_string "" = None.
Proof. reflexivity. Qed.
Example int_of_string_tab : int_of_string (String (ascii_of_nat 9) "7") = Some 7%Z.
Proof. reflexivity. Qed.
Example int_of_string_separator : int_of_string (String (ascii_of_nat 28) "7") = None.
Proof. reflexivity. Qed.
Example fmt_negative : fmt (AInt (-12)) = "-12".
Proof. reflexivity. Qed.

(** ** The monad *)

Ltac run :=
  unfold respond, try_except, bind, call, lift, ret, raise, answer, logged,
    logger_error, with_log in *; simpl in *.

Section MonadFacts.
Context {W : Type}.

Lemma respond_returns (m : M W Response) h e r e' :
  m e = (inr r, e') -> respond m h e = (r, e').
Proof. intros H. unfold respond. by rewrite H. Qed.

Lemma respond_raises (m : M W Response) h e x e' :
  m e = (inl x, e') -> respond m h e = h x e'.
Proof. intros H. unfold respond. by rewrite H. Qed.

Lemma for_each_length {A B} (f : A -> M W B) l e ys e' :
  for_each f l e = (inr ys, e') -> length ys = length l.
Proof.
  revert e ys e'. induction l as [|a l IH]; intros e ys e' H; simpl in H.
  - unfold ret in H. by simplify_eq.
  - unfold bind in H. destruct (f a e) as [[x|b] e1]; [done|].
    destruct (for_each f l e1) as [[x|bs] e2] eqn:E; [done|].
    unfold ret in H. simplify_eq. simpl. f_equal. eauto.
Qed.

End MonadFacts.

(** ** Validation of the patient identifier *)

Section Validation.
Context {W : Type} (self : PatientBackend W).

Lemma validate_paziente_id_ok paziente_id pid (e : Env W) :
  int paziente_id = inr pid -> (0 < pid)%Z ->
  BasePatientView.validate_paziente_id paziente_id e = (inr pid, e).
Proof.
  intros H Hpos. unfold BasePatientView.validate_paziente_id. run. rewrite H.
  destruct (Z.leb_spec pid 0); [lia|done].
Qed.

Lemma validate_paziente_id_rejects paziente_id (e : Env W) :
  ~ valid_patient_id paziente_id ->
  exists d, BasePatientView.validate_paziente_id paziente_id e
            = (inl (ValidationError d), e).
Proof.
  intros H. unfold BasePatientView.validate_paziente_id. run.
  destruct (int paziente_id) as [x|pid] eqn:E.
  - destruct paziente_id as [z|s]; simpl in E; [done|].
    destruct (int_of_string s); simplify_eq. eauto.
  - destruct (Z.leb_spec pid 0); [eauto|].
    destruct H. exists pid. split; [done|lia].
Qed.

End Validation.

(** ** BasePatientView *)

Section BasePatientViewFacts.
Context {W : Type} (self : PatientBackend W).

(** Both methods answer 400 to an identifier that is not a positive integer,
    before any access to the database. *)
Lemma get_rejects_invalid_id request paziente_id (e : Env W) :
  ~ valid_patient_id paziente_id ->
  exists msg, BasePatientView.get self request paziente_id e
              = (mkResponse (ErrorBody msg) HTTP_400_BAD_REQUEST, e).
Proof.
  intros H. destruct (validate_paziente_id_rejects paziente_id e H) as [d Hd].
  exists (str (ValidationError d)).
  unfold BasePatientView.get.
  rewrite (respond_raises _ _ e (ValidationError d) e); [done|].
  unfold BasePatientView.get_try, BasePatientView.get_object, bind. by rewrite Hd.
Qed.

Lemma put_rejects_invalid_id request paziente_id (e : Env W) :
  ~ valid_patient_id paziente_id ->
  exists msg, BasePatientView.put self request paziente_id e
              = (mkResponse (ErrorBody msg) HTTP_400_BAD_REQUEST, e).
Proof.
  intros H. destruct (validate_paziente_id_rejects paziente_id e H) as [d Hd].
  exists (str (ValidationError d)).
  unfold BasePatientView.put.
  rewrite (respond_raises _ _ e (ValidationError d) e); [done|].
  unfold BasePatientView.put_try, bind. by rewrite Hd.
Qed.

(** [get_object] on a valid identifier is the query, with a log line when the
    query raises. *)
Lemma get_object_valid paziente_id pid (e : Env W) :
  int paziente_id = inr pid -> (0 < pid)%Z ->
  BasePatientView.get_object self paziente_id e =
  match objects_first self pid (db e) with
  | (inr i, w) => (inr i, mkEnv w (log e))
  | (inl x, w) =>
      (inl x, mkEnv w (log e ++ ["Error fetching " +:+ model_name self +:+ ": " +:+ str x]))
  end.
Proof.
  intros H Hpos. unfold BasePatientView.get_object, bind.
  rewrite (validate_paziente_id_ok paziente_id pid e H Hpos). run.
  by destruct (objects_first self pid (db e)) as [[x|i] w].
Qed.

(** The status that [put] chooses after saving is 200 in both branches: the
    variable tested by [if instance] holds the saved document by then. *)
Lemma create_or_update_is_true instance validated_data (e : Env W) r e' :
  BasePatientView.create_or_update self instance validated_data e = (inr r, e') ->
  is_true r = true.
Proof.
  unfold BasePatientView.create_or_update. intros H.
  destruct instance as [i|]; run.
  - destruct (save self _ (db e)) as [[x|j] w]; by simplify_eq.
  - destruct (model_init self validated_data (db e)) as [[x|j] w]; simplify_eq.
    simpl in H. destruct (save self j w) as [[x|k] w']; by simplify_eq.
Qed.

Lemma put_never_201 request paziente_id (e : Env W) :
  status (fst (BasePatientView.put self request paziente_id e)) <> HTTP_201_CREATED.
Proof.
  unfold BasePatientView.put, respond.
  destruct (BasePatientView.put_try self request paziente_id e) as [[x|r] e'] eqn:E.
  - destruct x; by compute.
  - simpl. unfold BasePatientView.put_try, bind in E.
    destruct (BasePatientView.validate_paziente_id _ _) as [[?|pid] e1]; [done|].
    destruct (BasePatientView.get_object _ _ _) as [[?|instance] e2]; [done|].
    destruct (call _ e2) as [[?|[errors|vd]] e3]; [done| |].
    + unfold ret in E. simplify_eq. by compute.
    + destruct (BasePatientView.create_or_update _ _ _ _) as [[?|i] e4] eqn:Hcu; [done|].
      apply create_or_update_is_true in Hcu.
      destruct (call _ e4) as [[?|d] e5]; [done|].
      unfold ret in E. simplify_eq. simpl. rewrite Hcu. by compute.
Qed.

End BasePatientViewFacts.

(** C2, as the code behaves: for a valid positive patient identifier with no
    stored record, [BasePatientView.get] raises [NotFound] and its own
    [except (ValidationError, NotFound)] clause answers with status 400, not
    404; the body is the JSON error message and nothing is logged. *)
Theorem get_missing_record_status_400 {W} (self : PatientBackend W)
  request paziente_id pid (e : Env W) w :
  int paziente_id = inr pid -> (0 < pid)%Z ->
  objects_first self pid (db e) = (inr None, w) ->
  BasePatientView.get self request paziente_id e =
  (mkResponse
     (ErrorBody (model_name self +:+ " not found for patient " +:+ fmt paziente_id))
     HTTP_400_BAD_REQUEST,
   mkEnv w (log e)).
Proof.
  intros H Hpos Hq.
  unfold BasePatientView.get.
  rewrite (respond_raises _ _ e
             (NotFound (model_name self +:+ " not found for patient " +:+ fmt paziente_id))
             (mkEnv w (log e))); [done|].
  unfold BasePatientView.get_try, bind.
  rewrite (get_object_valid self paziente_id pid e H Hpos), Hq. done.
Qed.

Lemma get_missing_record_status_400_witness :
  BasePatientView.get (Mem.patient Sample.cfg) Sample.request (AStr "7") Sample.empty =
  (mkResponse (ErrorBody "Anagrafica not found for patient 7") HTTP_400_BAD_REQUEST,
   Sample.empty).
Proof.
  apply (get_missing_record_status_400 (Mem.patient Sample.cfg)
           Sample.request (AStr "7") 7 Sample.empty (Mem.mkWorld [] [])).
  - reflexivity.
  - lia.
  - reflexivity.
Defined.

(** ** The in-memory back end *)

Section MemFacts.
Context (cfg : Mem.Config).

Lemma first_None {F} (P : F -> Prop) `{forall x, Decision (P x)} (l : list F) :
  Mem.first P l = None <-> Forall (fun x => ~ P x) l.
Proof.
  unfold Mem.first. rewrite <- (list_find_None P l).
  destruct (list_find P l) as [[i f]|]; split; intros; done.
Qed.

Lemma first_Some {F} (P : F -> Prop) `{forall x, Decision (P x)} (l : list F) d :
  Mem.first P l = Some d ->
  exists i, pk d = Some i /\ l !! i = Some (doc d) /\ P (doc d).
Proof.
  unfold Mem.first. destruct (list_find P l) as [[i f]|] eqn:E; [|done].
  intros ?; simplify_eq. apply list_find_Some in E as (? & ? & _). eauto.
Qed.

(** The loop of [setattr] over the validated data overwrites the fields of the
    instance with them and keeps the others. *)
Lemma setattr_all (i : Instance) (validated_data : Data) :
  map_fold (fun key v acc => setattr acc key v) i validated_data
  = mkDocument (pk i) (validated_data ∪ doc i).
Proof.
  apply (map_fold_weak_ind
           (fun r (m : Data) => r = mkDocument (pk i) (m ∪ doc i))).
  - rewrite (left_id_L ∅ (∪)). by destruct i.
  - intros k v m r _ ->. unfold setattr. simpl. by rewrite insert_union_l.
Qed.

Lemma put_create_outcome request paziente_id pid (e : Env Mem.World) validated_data :
  int paziente_id = inr pid -> (0 < pid)%Z ->
  Mem.first (Mem.of_patient pid) (Mem.records (db e)) = None ->
  Mem.validate cfg None (<["paziente_id" := VInt pid]> (data request))
  = inr validated_data ->
  BasePatientView.put (Mem.patient cfg) request paziente_id e =
  (mkResponse
     (DataBody (JRecord (Some (mkDocument (Some (length (Mem.records (db e))))
                                 validated_data))))
     HTTP_200_OK,
   mkEnv (Mem.mkWorld (Mem.records (db e) ++ [validated_data]) (Mem.reports (db e)))
     (log e)).
Proof.
  intros H Hpos Hnone Hv. unfold BasePatientView.put.
  apply respond_returns. unfold BasePatientView.put_try, bind.
  rewrite (validate_paziente_id_ok paziente_id pid e H Hpos).
  rewrite (get_object_valid (Mem.patient cfg) (AInt pid) pid e eq_refl Hpos).
  simpl. rewrite Hnone. run. by rewrite Hv.
Qed.

Lemma put_update_outcome request paziente_id pid (e : Env Mem.World)
  instance validated_data i :
  int paziente_id = inr pid -> (0 < pid)%Z ->
  Mem.first (Mem.of_patient pid) (Mem.records (db e)) = Some instance ->
  pk instance = Some i ->
  Mem.validate cfg (Some instance) (<["paziente_id" := VInt pid]> (data request))
  = inr validated_data ->
  BasePatientView.put (Mem.patient cfg) request paziente_id e =
  (mkResponse
     (DataBody (JRecord (Some (mkDocument (Some i) (validated_data ∪ doc instance)))))
     HTTP_200_OK,
   mkEnv (Mem.mkWorld (<[i := validated_data ∪ doc instance]> (Mem.records (db e)))
            (Mem.reports (db e)))
     (log e)).
Proof.
  intros H Hpos Hsome Hpk Hv. unfold BasePatientView.put.
  apply respond_returns. unfold BasePatientView.put_try, bind.
  rewrite (validate_paziente_id_ok paziente_id pid e H Hpos).
  rewrite (get_object_valid (Mem.patient cfg) (AInt pid) pid e eq_refl Hpos).
  simpl. rewrite Hsome, Hv.
  unfold BasePatientView.create_or_update. rewrite setattr_all.
  unfold bind, call, ret. simpl. by rewrite Hpk.
Qed.

End MemFacts.

(** C1, as the code behaves: a PUT with a valid positive patient identifier
    and a body the serializer accepts creates the record when none exists and
    updates it when one exists, but the status is 200 in both cases.  The
    variable [instance] is assigned the new document before
    [HTTP_200_OK if instance else HTTP_201_CREATED] is evaluated, so 201 is
    never chosen. *)
Theorem put_valid_body_status_200 (cfg : Mem.Config) request paziente_id pid
  (e : Env Mem.World) found validated_data :
  int paziente_id = inr pid -> (0 < pid)%Z ->
  Mem.first (Mem.of_patient pid) (Mem.records (db e)) = found ->
  Mem.validate cfg found (<["paziente_id" := VInt pid]> (data request))
  = inr validated_data ->
  let (response, e') := BasePatientView.put (Mem.patient cfg) request paziente_id e in
  status response = HTTP_200_OK /\
  Mem.reports (db e') = Mem.reports (db e) /\
  match found with
  | None => Mem.records (db e') = Mem.records (db e) ++ [validated_data]
  | Some instance =>
      exists i, pk instance = Some i /\
        Mem.records (db e') = <[i := validated_data ∪ doc instance]> (Mem.records (db e))
  end.
Proof.
  intros H Hpos Hf Hv. destruct found as [instance|].
  - destruct (first_Some _ _ _ Hf) as (i & Hpk & _).
    rewrite (put_update_outcome cfg request paziente_id pid e instance
               validated_data i H Hpos Hf Hpk Hv).
    simpl. eauto.
  - rewrite (put_create_outcome cfg request paziente_id pid e validated_data
               H Hpos Hf Hv).
    done.
Qed.

Lemma put_valid_body_status_200_witness :
  let (response, e') :=
    BasePatientView.put (Mem.patient Sample.cfg) Sample.request (AStr "7") Sample.empty in
  status response = HTTP_200_OK /\
  Mem.reports (db e') = [] /\
  Mem.records (db e') = [] ++ [Sample.record7].
Proof.
  apply (put_valid_body_status_200 Sample.cfg Sample.request (AStr "7") 7
           Sample.empty None Sample.record7).
  - reflexivity.
  - lia.
  - reflexivity.
  - reflexivity.
Defined.

(** C10: a PUT whose body the serializer accepts stores the validated path
    parameter as patient identifier, whatever [paziente_id] the request body
    carries, provided the serializer hands the [paziente_id] field of its
    input through to the validated data.  The one record that the PUT writes
    is at a position that was free or held a record of the same patient, and
    every other record and every report is left as it was: no record moves to
    another patient. *)
Theorem put_stores_path_identifier (cfg : Mem.Config) request paziente_id pid
  (e : Env Mem.World) found validated_data :
  int paziente_id = inr pid -> (0 < pid)%Z ->
  (forall instance d vd,
      Mem.validate cfg instance d = inr vd -> vd !! "paziente_id" = d !! "paziente_id") ->
  Mem.first (Mem.of_patient pid) (Mem.records (db e)) = found ->
  Mem.validate cfg found (<["paziente_id" := VInt pid]> (data request))
  = inr validated_data ->
  let e' := snd (BasePatientView.put (Mem.patient cfg) request paziente_id e) in
  exists i stored,
    Mem.records (db e') !! i = Some stored /\
    stored !! "paziente_id" = Some (VInt pid) /\
    (forall j, j <> i -> Mem.records (db e') !! j = Mem.records (db e) !! j) /\
    (forall old, Mem.records (db e) !! i = Some old ->
                 old !! "paziente_id" = Some (VInt pid)) /\
    Mem.reports (db e') = Mem.reports (db e).
Proof.
  intros H Hpos Hser Hf Hv.
  assert (validated_data !! "paziente_id" = Some (VInt pid)) as Hvd.
  { rewrite (Hser _ _ _ Hv). apply lookup_insert_eq. }
  destruct found as [instance|].
  - destruct (first_Some _ _ _ Hf) as (i & Hpk & Hi & Hp).
    rewrite (put_update_outcome cfg request paziente_id pid e instance
               validated_data i H Hpos Hf Hpk Hv).
    simpl. exists i, (validated_data ∪ doc instance). split_and!.
    + apply list_lookup_insert_eq. by eapply lookup_lt_Some.
    + by apply lookup_union_Some_l.
    + intros j Hj. by apply list_lookup_insert_ne.
    + intros old Hold. rewrite Hi in Hold. by simplify_eq.
    + done.
  - rewrite (put_create_outcome cfg request paziente_id pid e validated_data
               H Hpos Hf Hv).
    simpl. exists (length (Mem.records (db e))), validated_data. split_and!.
    + by rewrite lookup_app_r, Nat.sub_diag.
    + done.
    + intros j Hj. destruct (decide (j < length (Mem.records (db e)))).
      * by rewrite lookup_app_l.
      * rewrite lookup_app_r by lia.
        rewrite (lookup_ge_None_2 (Mem.records (db e))) by lia.
        destruct (j - length (Mem.records (db e))) as [|k] eqn:E; [lia|done].
    + intros old Hold. apply lookup_lt_Some in Hold. lia.
    + done.
Qed.

Lemma put_stores_path_identifier_witness :
  let e' := snd (BasePatientView.put (Mem.patient Sample.cfg) Sample.request
                   (AStr "7") Sample.empty) in
  exists i stored,
    Mem.records (db e') !! i = Some stored /\
    stored !! "paziente_id" = Some (VInt 7) /\
    (forall j, j <> i -> Mem.records (db e') !! j = Mem.records (db Sample.empty) !! j) /\
    (forall old, Mem.records (db Sample.empty) !! i = Some old ->
                 old !! "paziente_id" = Some (VInt 7)) /\
    Mem.reports (db e') = Mem.reports (db Sample.empty).
Proof.
  apply (put_stores_path_identifier Sample.cfg Sample.request (AStr "7") 7
           Sample.empty None Sample.record7).
  - reflexivity.
  - lia.
  - intros instance d vd Hvd. simpl in Hvd. by simplify_eq.
  - reflexivity.
  - reflexivity.
Defined.

(** ** Identifier validation across the endpoints *)

(** C6, as stated, fails: the quick-report list and the report list for the
    patient identifier 0, which is not positive, answer 200 with an empty
    page.  The report views pass the path argument to the query as it is. *)
Lemma report_views_accept_patient_zero :
  ~ valid_patient_id (AInt 0) /\
  ~ valid_patient_id (AStr "0") /\
  fst (QuickReportView.get (Mem.report Sample.cfg) Sample.request (AInt 0) Sample.empty)
  = mkResponse (PageBody 0 None None []) HTTP_200_OK /\
  fst (QuickReportView.get (Mem.report Sample.cfg) Sample.request (AStr "0") Sample.empty)
  = mkResponse (PageBody 0 None None []) HTTP_200_OK /\
  fst (ReportView.get (Mem.report Sample.cfg) Sample.request (AInt 0) None Sample.empty)
  = mkResponse (PageBody 0 None None []) HTTP_200_OK /\
  HTTP_200_OK <> HTTP_400_BAD_REQUEST.
Proof.
  split_and!; [| |reflexivity|reflexivity|reflexivity|done].
  - intros (pid & Hpid & Hpos). simpl in Hpid. simplify_eq. lia.
  - intros (pid & Hpid & Hpos). vm_compute in Hpid. simplify_eq. lia.
Qed.

(** C6 (amended): on the generic patient record endpoint, GET and PUT answer
    400 with a JSON error message to every patient identifier that is not a
    valid integer or is not positive, whatever the back end, and leave the
    database and the log untouched. *)
Theorem record_endpoint_rejects_invalid_id {W} (self : PatientBackend W)
  request paziente_id (e : Env W) :
  ~ valid_patient_id paziente_id ->
  (exists msg, BasePatientView.get self request paziente_id e
               = (mkResponse (ErrorBody msg) HTTP_400_BAD_REQUEST, e)) /\
  (exists msg, BasePatientView.put self request paziente_id e
               = (mkResponse (ErrorBody msg) HTTP_400_BAD_REQUEST, e)).
Proof.
  intros H. split.
  - by apply get_rejects_invalid_id.
  - by apply put_rejects_invalid_id.
Qed.

Lemma record_endpoint_rejects_invalid_id_witness :
  (exists msg, BasePatientView.get (Mem.patient Sample.cfg) Sample.request (AStr "-3")
                 Sample.empty
               = (mkResponse (ErrorBody msg) HTTP_400_BAD_REQUEST, Sample.empty)) /\
  (exists msg, BasePatientView.put (Mem.patient Sample.cfg) Sample.request (AStr "-3")
                 Sample.empty
               = (mkResponse (ErrorBody msg) HTTP_400_BAD_REQUEST, Sample.empty)).
Proof.
  apply (record_endpoint_rejects_invalid_id (Mem.patient Sample.cfg) Sample.request
           (AStr "-3") Sample.empty).
  intros (pid & Hpid & Hpos). vm_compute in Hpid. simplify_eq. lia.
Defined.

Example record_endpoint_rejects_letters :
  fst (BasePatientView.get (Mem.patient Sample.cfg) Sample.request (AStr "abc") Sample.empty)
  = mkResponse
      (ErrorBody "[ErrorDetail(string='paziente_id must be a valid integer', code='invalid')]")
      HTTP_400_BAD_REQUEST.
Proof. reflexivity. Qed.

Example record_endpoint_rejects_separator :
  status (fst (BasePatientView.put (Mem.patient Sample.cfg) Sample.request
                 (AStr (String (ascii_of_nat 28) "7")) Sample.empty))
  = HTTP_400_BAD_REQUEST.
Proof. reflexivity. Qed.

(** ** Unexpected exceptions *)



(** ** Pagination *)

Lemma positive_int_bounds v n :
  Pagination._positive_int v true (Some 100%Z) = Some n -> (1 <= n <= 100)%Z.
Proof.
  unfold Pagination._positive_int. destruct (int_of_string v) as [r|]; [|done].
  destruct (Z.ltb_spec r 0); simpl; [done|].
  destruct (Z.eqb_spec r 0); simpl; [done|].
  intros ?; simplify_eq. lia.
Qed.

Lemma get_page_size_bounds request :
  exists n, Pagination.get_page_size ReportPagination request = Some n /\
            (1 <= n <= 100)%Z /\
            (query_params request !! "page_size" = None -> n = 10%Z).
Proof.
  unfold Pagination.get_page_size. simpl.
  destruct (query_params request !! "page_size") as [v|] eqn:E.
  - destruct (Pagination._positive_int v true (Some 100%Z)) as [n|] eqn:En.
    + exists n. split; [done|]. split; [by eapply positive_int_bounds|done].
    + exists 10%Z. split; [done|]. split; [lia|done].
  - exists 10%Z. split; [done|]. split; [lia|done].
Qed.

(** With [ReportPagination] the paginator is never switched off, and a page
    holds at most [page_size] items. *)
Lemma paginate_queryset_bounds {A} (queryset : list A) request :
  match Pagination.paginate_queryset ReportPagination queryset request with
  | inr (Some page) =>
      length (Pagination.object_list page) <= 100 /\
      (query_params request !! "page_size" = None ->
       length (Pagination.object_list page) <= 10)
  | inr None => False
  | inl x => exists d, x = NotFound d
  end.
Proof.
  unfold Pagination.paginate_queryset.
  destruct (get_page_size_bounds request) as (n & -> & Hn & Hdefault).
  destruct (Z.eqb_spec n 0); [lia|].
  destruct (int _) as [x|number]; [eauto|].
  destruct (Z.ltb_spec number 1); [eauto|].
  destruct (Z.ltb_spec (Pagination.paginator_num_pages (length queryset) n) number);
    [eauto|].
  simpl. rewrite length_take.
  assert (forall top : Z,
    top = (if (Z.of_nat (length queryset) <=? (number - 1) * n + n)%Z
           then Z.of_nat (length queryset) else ((number - 1) * n + n)%Z) ->
    Z.to_nat (top - (number - 1) * n) <= Z.to_nat n) as Hle.
  { intros top ->. destruct (Z.leb_spec (Z.of_nat (length queryset)) ((number - 1) * n + n)); lia. }
  specialize (Hle _ eq_refl). split.
  - lia.
  - intros Hq. specialize (Hdefault Hq). subst n. lia.
Qed.

Section PaginationFacts.
Context {W : Type} (report : ReportBackend W).

Lemma get_paginated_response_bounds request data cls (e : Env W) r e' :
  ReportView.get_paginated_response report request data cls e = (inr r, e') ->
  exists count next previous results,
    body r = PageBody count next previous results /\
    length results <= 100 /\
    (query_params request !! "page_size" = None -> length results <= 10).
Proof.
  unfold ReportView.get_paginated_response, ReportView.pagination_class, bind, lift.
  pose proof (paginate_queryset_bounds data request) as Hb.
  destruct (Pagination.paginate_queryset ReportPagination data request)
    as [x|[page|]]; [done| |done].
  destruct (for_each _ _ _) as [[x|results] e1] eqn:E; [done|].
  apply for_each_length in E. unfold ret. intros ?; simplify_eq. simpl.
  rewrite <- E in Hb. eauto 10.
Qed.

Lemma quick_report_get_try request paziente_id :
  QuickReportView.get_try report request paziente_id
  = (let* reports := call (Report_objects_order_by report paziente_id) in
     ReportView.get_paginated_response report request reports QuickReportSerializer).
Proof. reflexivity. Qed.

Lemma list_all_bounds request paziente_id cls (e : Env W) r e' :
  (let* reports := call (Report_objects_order_by report paziente_id) in
   ReportView.get_paginated_response report request reports cls) e = (inr r, e') ->
  forall results, items_of r = Some results ->
    length results <= 100 /\
    (query_params request !! "page_size" = None -> length results <= 10).
Proof.
  unfold bind at 1. destruct (call _ e) as [[x|reports] e1]; [done|].
  intros (c & nx & pv & rs & Hbody & Hb)%get_paginated_response_bounds results.
  unfold items_of. rewrite Hbody. by intros ?; simplify_eq.
Qed.

End PaginationFacts.

(** C7: a list response of the report endpoint or of the quick-report
    endpoint never holds more than 100 items, and at most 10 when the request
    has no [page_size] parameter, whatever the back end returns. *)
Theorem page_never_exceeds_page_size {W} (report : ReportBackend W) request
  paziente_id report_id (e : Env W) results :
  items_of (fst (ReportView.get report request paziente_id report_id e)) = Some results \/
  items_of (fst (QuickReportView.get report request paziente_id e)) = Some results ->
  length results <= 100 /\
  (query_params request !! "page_size" = None -> length results <= 10).
Proof.
  intros [H|H].
  - unfold ReportView.get, respond in H.
    destruct (ReportView.get_try report request paziente_id report_id e)
      as [[x|r] e'] eqn:E.
    + by destruct x.
    + unfold ReportView.get_try in E.
      destruct report_id as [rid|]; [destruct (truthy rid)|].
      * unfold bind in E. destruct (call _ e) as [[x|[d|]] e1]; [done| |done].
        destruct (call _ e1) as [[x|j] e2]; [done|].
        unfold ret in E. by simplify_eq.
      * by eapply list_all_bounds.
      * by eapply list_all_bounds.
  - unfold QuickReportView.get, respond in H.
    destruct (QuickReportView.get_try report request paziente_id e)
      as [[x|r] e'] eqn:E; [done|].
    rewrite quick_report_get_try in E. by eapply list_all_bounds.
Qed.

Lemma page_never_exceeds_page_size_witness :
  exists results,
    items_of (fst (ReportView.get (Mem.report Sample.cfg) Sample.request (AStr "7") None
                     Sample.twelve_reports)) = Some results /\
    length results = 10 /\
    length results <= 100 /\
    (query_params Sample.request !! "page_size" = None -> length results <= 10).
Proof.
  eexists. split; [reflexivity|]. split; [reflexivity|].
  apply (page_never_exceeds_page_size (Mem.report Sample.cfg) Sample.request
           (AStr "7") None Sample.twelve_reports).
  left. reflexivity.
Defined.

Example page_size_parameter_is_cut_off :
  Pagination.get_page_size ReportPagination
    (mkRequest ∅ (<["page_size" := "500"]> ∅)) = Some 100%Z.
Proof. reflexivity. Qed.

Example page_size_zero_falls_back :
  Pagination.get_page_size ReportPagination
    (mkRequest ∅ (<["page_size" := "0"]> ∅)) = Some 10%Z.
Proof. reflexivity. Qed.

(** ** ReportView over the in-memory back end *)

Section ReportFacts.
Context (cfg : Mem.Config).

Lemma any_values_false latest :
  any_values latest = false <-> Forall (fun kv => snd kv = None) latest.
Proof.
  unfold any_values. induction latest as [|[k [i|]] l IH]; simpl.
  - split; [constructor|done].
  - split; [done|]. intros H. by apply Forall_cons in H as [? _].
  - rewrite IH. split; [by constructor|]. by intros [_ ?]%Forall_cons.
Qed.

Lemma any_values_true latest :
  any_values latest = true <-> Exists (fun kv => is_Some (snd kv)) latest.
Proof.
  unfold any_values. induction latest as [|[k [i|]] l IH]; simpl.
  - split; [done|]. by intros ?%Exists_nil.
  - split; [|done]. intros _. by apply Exists_cons_hd.
  - rewrite IH. split; [by apply Exists_cons_tl|].
    intros [[? ?]|?]%Exists_cons; [done..].
Qed.

(** Assigning the section references changes nothing else on the report. *)
Lemma assign_references_fields report latest :
  pk (assign_references report latest) = pk report /\
  paziente_id (doc (assign_references report latest)) = paziente_id (doc report) /\
  operatore_id (doc (assign_references report latest)) = operatore_id (doc report) /\
  report_id (doc (assign_references report latest)) = report_id (doc report).
Proof.
  unfold assign_references. revert report.
  induction latest as [|[k [i|]] l IH]; intros report; simpl; [done| |apply IH].
  destruct (IH (setattr_ref report k i)) as (-> & -> & -> & ->). done.
Qed.

(** What [post] does, for a patient identifier that [int] accepts. *)
Lemma post_outcome request paziente_id pid (e : Env Mem.World) :
  int paziente_id = inr pid ->
  let draft := draft_report request pid (db e) in
  let latest := Mem.latest_records cfg (db e) draft in
  let report := doc (assign_references draft latest) in
  ReportView.post (Mem.report cfg) request paziente_id e =
  if any_values latest
  then (mkResponse
          (DataBody (JReport ReportSerializer
                       (mkDocument (Some (length (Mem.reports (db e)))) report)))
          HTTP_201_CREATED,
        mkEnv (Mem.mkWorld (Mem.records (db e)) (Mem.reports (db e) ++ [report])) (log e))
  else (mkResponse
          (ErrorBody (str (ValidationError "No records found for this patient")))
          HTTP_400_BAD_REQUEST,
        e).
Proof.
  intros H draft latest report.
  unfold ReportView.post, respond, ReportView.post_try, bind, call. simpl.
  rewrite H. simpl.
  change (mkDocument None
            (mkReport pid (data request !! "operatore_id")
               (Mem.next_report_id pid (Mem.reports (db e))) ∅)) with draft.
  change (Mem.latest_records cfg (db e) draft) with latest.
  destruct (any_values latest) eqn:Hany; simpl.
  - destruct (assign_references_fields draft latest) as (Hpk & _).
    rewrite Hpk. done.
  - unfold raise, answer. by destruct e.
Qed.

Lemma next_report_id_above pid l r :
  r ∈ l -> paziente_id r = pid -> (report_id r < Mem.next_report_id pid l)%Z.
Proof.
  intros Hr Hp. unfold Mem.next_report_id, Mem.report_ids.
  assert (report_id r ∈ report_id <$> filter (Mem.report_of pid) l) as Hin.
  { apply list_elem_of_fmap. exists r. split; [done|]. by apply list_elem_of_filter. }
  revert Hin. generalize (report_id <$> filter (Mem.report_of pid) l) as ids.
  generalize (report_id r) as z. intros z ids.
  induction ids as [|y ids IH]; simpl; [by intros ?%elem_of_nil|].
  intros [->|Hin]%elem_of_cons; [lia|]. specialize (IH Hin). lia.
Qed.

Lemma next_report_id_positive pid l : (0 < Mem.next_report_id pid l)%Z.
Proof.
  unfold Mem.next_report_id. generalize (Mem.report_ids pid l) as ids.
  intros ids. induction ids as [|y ids IH]; simpl; lia.
Qed.

(** A report that gets the next identifier of its patient has a fresh key. *)
Lemma report_keys_snoc l r :
  NoDup (report_key <$> l) ->
  report_id r = Mem.next_report_id (paziente_id r) l ->
  NoDup (report_key <$> (l ++ [r])).
Proof.
  intros Hnd Hid.
  rewrite fmap_app. apply NoDup_app. split_and!; [done| |apply NoDup_singleton].
  intros k (old & -> & Hold)%list_elem_of_fmap Hk. simpl in Hk.
  apply list_elem_of_singleton in Hk. unfold report_key in Hk. simplify_eq.
  pose proof (next_report_id_above (paziente_id r) l old Hold) as Hlt.
  rewrite <- Hid in Hlt. lia.
Qed.

(** POST keeps the invariant of the report collection. *)
Lemma reports_wf_snoc l r :
  reports_wf l ->
  report_id r = Mem.next_report_id (paziente_id r) l ->
  reports_wf (l ++ [r]).
Proof.
  intros [Hnd Hpos] Hid. split.
  - by apply report_keys_snoc.
  - apply Forall_app. split; [done|]. apply Forall_singleton.
    rewrite Hid. apply next_report_id_positive.
Qed.

Lemma post_keeps_reports_wf request patient (e : Env Mem.World) :
  reports_wf (Mem.reports (db e)) ->
  reports_wf (Mem.reports (db (snd (ReportView.post (Mem.report cfg) request patient e)))).
Proof.
  intros Hwf. destruct (int patient) as [x|pid] eqn:H.
  - unfold ReportView.post, respond, ReportView.post_try, bind, call. simpl.
    rewrite H. by destruct x.
  - rewrite (post_outcome request patient pid e H).
    destruct (any_values _); [|done]. simpl. apply reports_wf_snoc; [done|].
    by destruct (assign_references_fields (draft_report request pid (db e))
                   (Mem.latest_records cfg (db e) (draft_report request pid (db e))))
      as (_ & -> & _ & ->).
Qed.

End ReportFacts.

(** C4: for a patient whose per-section latest-record lookups are all empty,
    POST on the report endpoint answers 400 and leaves the database and the
    log as they were; when at least one lookup finds a record, POST answers
    201 and the report collection grows by exactly one report, of this
    patient. *)
Theorem post_requires_a_section_record (cfg : Mem.Config) request patient pid
  (e : Env Mem.World) :
  int patient = inr pid ->
  let latest := Mem.latest_records cfg (db e) (draft_report request pid (db e)) in
  let out := ReportView.post (Mem.report cfg) request patient e in
  (Forall (fun kv => snd kv = None) latest ->
   status (fst out) = HTTP_400_BAD_REQUEST /\ snd out = e) /\
  (Exists (fun kv => is_Some (snd kv)) latest ->
   status (fst out) = HTTP_201_CREATED /\
   Mem.records (db (snd out)) = Mem.records (db e) /\
   exists r, Mem.reports (db (snd out)) = Mem.reports (db e) ++ [r] /\
             paziente_id r = pid).
Proof.
  intros H latest out. unfold out.
  rewrite (post_outcome cfg request patient pid e H).
  fold latest. destruct (any_values latest) eqn:Hany.
  - split.
    + intros Hall%any_values_false. congruence.
    + intros _. split_and!; [done..|]. eexists. split; [done|].
      by destruct (assign_references_fields (draft_report request pid (db e)) latest)
        as (_ & -> & _).
  - split; [done|]. intros Hex%any_values_true. congruence.
Qed.

Lemma post_requires_a_section_record_witness :
  (let out := ReportView.post (Mem.report Sample.cfg) Sample.request (AStr "7")
                Sample.empty in
   status (fst out) = HTTP_400_BAD_REQUEST /\ snd out = Sample.empty) /\
  (let out := ReportView.post (Mem.report Sample.cfg) Sample.request (AStr "7")
                Sample.three_reports in
   status (fst out) = HTTP_201_CREATED /\
   Mem.records (db (snd out)) = Mem.records (db Sample.three_reports) /\
   exists r, Mem.reports (db (snd out)) = Mem.reports (db Sample.three_reports) ++ [r] /\
             paziente_id r = 7%Z).
Proof.
  split.
  - apply (proj1 (post_requires_a_section_record Sample.cfg Sample.request (AStr "7") 7
                    Sample.empty eq_refl)).
    repeat constructor.
  - apply (proj2 (post_requires_a_section_record Sample.cfg Sample.request (AStr "7") 7
                    Sample.three_reports eq_refl)).
    apply Exists_cons_hd. vm_compute. eauto.
Defined.

(** C3: over the in-memory collection, with the next identifier taken from
    the stored reports of the patient, a POST that creates a report appends
    one report of this patient whose identifier is greater than the
    identifier of every report already stored for the patient; if no two
    stored reports shared a key before, none do afterwards. *)
Theorem post_assigns_increasing_report_id (cfg : Mem.Config) request patient pid
  (e : Env Mem.World) :
  int patient = inr pid ->
  Exists (fun kv => is_Some (snd kv))
    (Mem.latest_records cfg (db e) (draft_report request pid (db e))) ->
  let e' := snd (ReportView.post (Mem.report cfg) request patient e) in
  exists r,
    Mem.reports (db e') = Mem.reports (db e) ++ [r] /\
    paziente_id r = pid /\
    (forall old, old ∈ Mem.reports (db e) -> paziente_id old = pid ->
                 (report_id old < report_id r)%Z) /\
    (NoDup (report_key <$> Mem.reports (db e)) ->
     NoDup (report_key <$> Mem.reports (db e'))).
Proof.
  intros H Hex%any_values_true e'. unfold e'.
  rewrite (post_outcome cfg request patient pid e H), Hex. simpl.
  destruct (assign_references_fields (draft_report request pid (db e))
              (Mem.latest_records cfg (db e) (draft_report request pid (db e))))
    as (_ & Hp & _ & Hid).
  eexists. split_and!; [done|by rewrite Hp| |].
  - intros old Hold Hpid. rewrite Hid. simpl. by apply next_report_id_above.
  - intros Hnd. apply report_keys_snoc; [done|]. by rewrite Hp, Hid.
Qed.

Lemma post_assigns_increasing_report_id_witness :
  let e' := snd (ReportView.post (Mem.report Sample.cfg) Sample.request (AStr "7")
                   Sample.three_reports) in
  exists r,
    Mem.reports (db e') = Mem.reports (db Sample.three_reports) ++ [r] /\
    paziente_id r = 7%Z /\
    (forall old, old ∈ Mem.reports (db Sample.three_reports) -> paziente_id old = 7%Z ->
                 (report_id old < report_id r)%Z) /\
    (NoDup (report_key <$> Mem.reports (db Sample.three_reports)) ->
     NoDup (report_key <$> Mem.reports (db e'))).
Proof.
  apply (post_assigns_increasing_report_id Sample.cfg Sample.request (AStr "7") 7
           Sample.three_reports).
  - reflexivity.
  - apply Exists_cons_hd. vm_compute. eauto.
Defined.

Example post_assigns_four_after_three :
  report_id <$> Mem.reports (db (snd (ReportView.post (Mem.report Sample.cfg)
                                        Sample.request (AStr "7") Sample.three_reports)))
  = [1; 2; 3; 4]%Z.
Proof. reflexivity. Qed.

Section DeleteFacts.
Context (cfg : Mem.Config).

Lemma report_at_key pid rid r :
  Mem.report_at pid rid r <-> report_key r = (pid, rid).
Proof.
  unfold Mem.report_at, report_key. split.
  - by intros [-> ->].
  - intros ?. by simplify_eq.
Qed.

(** A path argument that denotes a non-zero integer is true. *)
Lemma truthy_nonzero a z : int a = inr z -> z <> 0%Z -> truthy a = true.
Proof.
  destruct a as [y|s]; simpl.
  - intros ? Hz; simplify_eq. by destruct (Z.eqb_spec z 0).
  - destruct s; [|done]. by vm_compute.
Qed.

Lemma delete_outcome request patient report pid rid (e : Env Mem.World) :
  int patient = inr pid -> int report = inr rid ->
  ReportView.delete (Mem.report cfg) request patient report e =
  match list_find (Mem.report_at pid rid) (Mem.reports (db e)) with
  | Some (i, _) =>
      (mkResponse NoBody HTTP_204_NO_CONTENT,
       mkEnv (Mem.mkWorld (Mem.records (db e)) (delete i (Mem.reports (db e)))) (log e))
  | None =>
      (mkResponse
         (ErrorBody ("Report " +:+ fmt report +:+ " not found for patient " +:+ fmt patient))
         HTTP_404_NOT_FOUND,
       e)
  end.
Proof.
  intros Hp Hr.
  unfold ReportView.delete, respond, ReportView.delete_try, bind, call. simpl.
  rewrite Hp, Hr. unfold Mem.first.
  destruct (list_find _ _) as [[i r]|]; simpl; [done|].
  unfold raise, answer. by destruct e.
Qed.

Lemma get_one_outcome request patient report pid rid (e : Env Mem.World) :
  int patient = inr pid -> int report = inr rid -> truthy report = true ->
  ReportView.get (Mem.report cfg) request patient (Some report) e =
  match Mem.first (Mem.report_at pid rid) (Mem.reports (db e)) with
  | Some d => (mkResponse (DataBody (JReport ReportSerializer d)) HTTP_200_OK, e)
  | None =>
      (mkResponse
         (ErrorBody ("Report " +:+ fmt report +:+ " not found for patient " +:+ fmt patient))
         HTTP_404_NOT_FOUND,
       e)
  end.
Proof.
  intros Hp Hr Ht.
  unfold ReportView.get, respond, ReportView.get_try. rewrite Ht.
  unfold bind, call. simpl. rewrite Hp, Hr.
  destruct (Mem.first _ _) as [d|]; simpl; unfold ret, raise, answer; by destruct e.
Qed.

(** In a collection without duplicate keys, deleting a report leaves no
    report with its key. *)
Lemma delete_key_gone (l : list ReportFields) i r :
  NoDup (report_key <$> l) -> l !! i = Some r ->
  Forall (fun x => report_key x <> report_key r) (delete i l).
Proof.
  intros Hnd Hi. rewrite delete_take_drop.
  rewrite <- (take_drop_middle l i r Hi) in Hnd.
  rewrite fmap_app, fmap_cons in Hnd.
  apply NoDup_app in Hnd as (_ & Hl & [Hr _]%NoDup_cons).
  apply Forall_app. split; apply Forall_forall; intros x Hx Heq.
  - apply (Hl (report_key x)); [by apply list_elem_of_fmap_2|].
    rewrite Heq. apply list_elem_of_here.
  - apply Hr. rewrite <- Heq. by apply list_elem_of_fmap_2.
Qed.

End DeleteFacts.

(** C5: in a report collection that satisfies its invariant (positive report
    identifiers, no two reports with the same key), DELETE for the key of a
    stored report answers 204, removes that report and nothing else, and a GET
    for the same key afterwards answers 404; DELETE for a key that no stored
    report has answers 404 and changes neither the database nor the log. *)
Theorem delete_removes_the_report (cfg : Mem.Config) request patient report pid rid
  (e : Env Mem.World) :
  int patient = inr pid -> int report = inr rid ->
  reports_wf (Mem.reports (db e)) ->
  let out := ReportView.delete (Mem.report cfg) request patient report e in
  ((exists r, r ∈ Mem.reports (db e) /\ report_key r = (pid, rid)) ->
   fst out = mkResponse NoBody HTTP_204_NO_CONTENT /\
   (exists i r, Mem.reports (db e) !! i = Some r /\ report_key r = (pid, rid) /\
                Mem.reports (db (snd out)) = delete i (Mem.reports (db e))) /\
   Mem.records (db (snd out)) = Mem.records (db e) /\
   log (snd out) = log e /\
   status (fst (ReportView.get (Mem.report cfg) request patient (Some report) (snd out)))
   = HTTP_404_NOT_FOUND) /\
  ((forall r, r ∈ Mem.reports (db e) -> report_key r <> (pid, rid)) ->
   status (fst out) = HTTP_404_NOT_FOUND /\ snd out = e).
Proof.
  intros Hp Hr [Hnd Hpos] out. unfold out.
  rewrite (delete_outcome cfg request patient report pid rid e Hp Hr).
  destruct (list_find _ _) as [[i r]|] eqn:Hfind.
  - apply list_find_Some in Hfind as (Hi & Hat & _). split.
    + intros _. simpl. apply report_at_key in Hat. split_and!; [done|eauto|done..|].
      assert (truthy report = true) as Ht.
      { apply (truthy_nonzero report rid Hr).
        rewrite Forall_forall in Hpos.
        specialize (Hpos r (list_elem_of_lookup_2 _ _ _ Hi)).
        unfold report_key in Hat. simplify_eq. lia. }
      rewrite (get_one_outcome cfg request patient report pid rid _ Hp Hr Ht). simpl.
      assert (Mem.first (Mem.report_at pid rid) (delete i (Mem.reports (db e))) = None)
        as ->; [|done].
      apply first_None. eapply Forall_impl; [by apply (delete_key_gone _ i r)|].
      intros x Hx Hk. apply report_at_key in Hk. congruence.
    + intros Hno. destruct (Hno r); [by eapply list_elem_of_lookup_2|].
      by apply report_at_key.
  - apply list_find_None in Hfind. split; [|done].
    intros (r & Hin & Hk). rewrite Forall_forall in Hfind.
    destruct (Hfind r Hin). by apply report_at_key.
Qed.

Lemma delete_removes_the_report_witness :
  let out := ReportView.delete (Mem.report Sample.cfg) Sample.request (AStr "7") (AInt 2)
               Sample.three_reports in
  fst out = mkResponse NoBody HTTP_204_NO_CONTENT /\
  (exists i r, Mem.reports (db Sample.three_reports) !! i = Some r /\
               report_key r = (7, 2)%Z /\
               Mem.reports (db (snd out)) = delete i (Mem.reports (db Sample.three_reports))) /\
  Mem.records (db (snd out)) = Mem.records (db Sample.three_reports) /\
  log (snd out) = log Sample.three_reports /\
  status (fst (ReportView.get (Mem.report Sample.cfg) Sample.request (AStr "7")
                 (Some (AInt 2)) (snd out)))
  = HTTP_404_NOT_FOUND.
Proof.
  assert (reports_wf (Mem.reports (db Sample.three_reports))) as Hwf.
  { apply (bool_decide_unpack (reports_wf _)). vm_compute. exact I. }
  apply (proj1 (delete_removes_the_report Sample.cfg Sample.request (AStr "7") (AInt 2)
                  7 2 Sample.three_reports eq_refl eq_refl Hwf)).
  exists (Sample.report7 2). split; [|reflexivity].
  apply list_elem_of_lookup. by exists 1.
Defined.

Example delete_leaves_the_other_reports :
  report_id <$> Mem.reports (db (snd (ReportView.delete (Mem.report Sample.cfg)
                                        Sample.request (AStr "7") (AInt 2)
                                        Sample.three_reports)))
  = [1; 3]%Z.
Proof. reflexivity. Qed.

(** Outside the invariant the second half of the property is lost: a report
    stored twice is still found after one DELETE, and a GET for the report
    identifier 0 is a list request, because [if report_id:] is false for 0. *)
Example duplicate_survives_delete :
  let out := ReportView.delete (Mem.report Sample.cfg) Sample.request (AStr "7") (AInt 1)
               Sample.duplicated in
  status (fst out) = HTTP_204_NO_CONTENT /\
  status (fst (ReportView.get (Mem.report Sample.cfg) Sample.request (AStr "7")
                 (Some (AInt 1)) (snd out))) = HTTP_200_OK.
Proof. split; reflexivity. Qed.

Example report_zero_is_listed :
  let out := ReportView.delete (Mem.report Sample.cfg) Sample.request (AStr "7") (AInt 0)
               Sample.with_report_zero in
  status (fst out) = HTTP_204_NO_CONTENT /\
  fst (ReportView.get (Mem.report Sample.cfg) Sample.request (AStr "7")
         (Some (AInt 0)) (snd out))
  = mkResponse
      (PageBody 1 None None
         [JReport ReportSerializer (mkDocument (Some 0) (Sample.report7 1))])
      HTTP_200_OK.
Proof. split; reflexivity. Qed.

Example delete_missing_report :
  ReportView.delete (Mem.report Sample.cfg) Sample.request (AStr "7") (AInt 9)
    Sample.three_reports
  = (mkResponse (ErrorBody "Report 9 not found for patient 7") HTTP_404_NOT_FOUND,
     Sample.three_reports).
Proof. reflexivity. Qed.

(** ** Order of the report lists *)

Section OrderFacts.
Context (cfg : Mem.Config).

#[local] Instance newer_first_transitive : Transitive Mem.newer_first.
Proof. unfold Mem.newer_first. intros a b c ??. lia. Qed.

#[local] Instance newer_first_total : Total Mem.newer_first.
Proof. unfold Mem.newer_first. intros a b. lia. Qed.

Lemma stored_lookup {F} (l : list F) (d : Document F) :
  d ∈ Mem.stored l <-> exists i, pk d = Some i /\ l !! i = Some (doc d).
Proof.
  unfold Mem.stored. rewrite list_elem_of_lookup. split.
  - intros (i & Hi). rewrite list_lookup_imap in Hi.
    destruct (l !! i) as [f|] eqn:E; simplify_eq/=. eauto.
  - intros (i & Hpk & Hi). exists i. rewrite list_lookup_imap, Hi. simpl.
    destruct d. simpl in *. by subst.
Qed.

Lemma stored_docs {F} (l : list F) : doc <$> Mem.stored l = l.
Proof.
  unfold Mem.stored. apply list_eq. intros i.
  rewrite list_lookup_fmap, list_lookup_imap. by destruct (l !! i).
Qed.

(** The sorted list holds exactly the stored reports of the patient. *)
Lemma newest_first_elem pid l d :
  d ∈ Mem.newest_first pid l <->
  (exists i, pk d = Some i /\ l !! i = Some (doc d)) /\ paziente_id (doc d) = pid.
Proof.
  unfold Mem.newest_first. rewrite merge_sort_Permutation.
  rewrite list_elem_of_filter, stored_lookup. unfold Mem.report_of. tauto.
Qed.

Lemma filter_docs (P : ReportFields -> Prop) `{forall x, Decision (P x)}
  (l : list ReportDocument) :
  doc <$> filter (fun r => P (doc r)) l = filter P (doc <$> l).
Proof.
  induction l as [|d l IH]; [done|]. rewrite fmap_cons.
  destruct (decide (P (doc d))) as [Hd|Hd].
  - rewrite !filter_cons_True by done. by rewrite fmap_cons, IH.
  - by rewrite !filter_cons_False by done.
Qed.

(** Without duplicate keys, the identifiers of one patient are distinct. *)
Lemma report_ids_NoDup pid l :
  NoDup (report_key <$> l) -> NoDup (Mem.report_ids pid l).
Proof.
  unfold Mem.report_ids. induction l as [|r l IH]; simpl; [constructor|].
  intros [Hr Hl]%NoDup_cons. rewrite filter_cons.
  destruct (decide (Mem.report_of pid r)) as [Hp|]; [|by apply IH].
  rewrite fmap_cons. apply NoDup_cons. split; [|by apply IH].
  intros (x & Hid & [Hx Hin]%list_elem_of_filter)%list_elem_of_fmap.
  apply Hr. apply list_elem_of_fmap. exists x. split; [|done].
  unfold report_key, Mem.report_of in *. congruence.
Qed.

Lemma decreasing_strict (l : list Z) :
  StronglySorted (fun a b => (b <= a)%Z) l -> NoDup l -> strictly_decreasing l.
Proof.
  unfold strictly_decreasing. induction 1 as [|x l Hs IH Hx]; [constructor|].
  intros [Hnotin Hnd]%NoDup_cons. constructor; [by apply IH|].
  apply Forall_forall. intros y Hy. rewrite Forall_forall in Hx.
  specialize (Hx y Hy). assert (y <> x) by (by intros ->). lia.
Qed.

Lemma newest_first_decreasing pid l :
  NoDup (report_key <$> l) ->
  strictly_decreasing ((fun r => report_id (doc r)) <$> Mem.newest_first pid l).
Proof.
  intros Hnd. apply decreasing_strict.
  - apply (StronglySorted_fmap _ Mem.newer_first); [by intros ???|].
    apply (StronglySorted_merge_sort Mem.newer_first).
  - unfold Mem.newest_first.
    rewrite merge_sort_Permutation.
    rewrite (list_fmap_compose doc report_id), filter_docs, stored_docs.
    by apply report_ids_NoDup.
Qed.

Lemma strictly_decreasing_sublist (l k : list Z) :
  k `sublist_of` l -> strictly_decreasing l -> strictly_decreasing k.
Proof.
  unfold strictly_decreasing. intros Hsub Hl. revert k Hsub.
  induction Hl as [|x l Hs IH Hx]; intros k Hsub.
  - apply sublist_nil_r in Hsub as ->. constructor.
  - apply sublist_cons_r in Hsub as [Hsub|(k' & -> & Hsub)]; [by apply IH|].
    constructor; [by apply IH|]. apply Forall_forall. intros y Hy.
    rewrite Forall_forall in Hx. apply Hx. by eapply elem_of_sublist.
Qed.

End OrderFacts.

Section ListFacts.
Context (cfg : Mem.Config).

Lemma for_each_cons {W A B} (f : A -> M W B) x l (e : Env W) :
  for_each f (x :: l) e =
  match f x e with
  | (inr y, e1) =>
      match for_each f l e1 with
      | (inr ys, e2) => (inr (y :: ys), e2)
      | (inl b, e2) => (inl b, e2)
      end
  | (inl b, e1) => (inl b, e1)
  end.
Proof. reflexivity. Qed.

Lemma for_each_data cls (l : list ReportDocument) (e : Env Mem.World) :
  for_each (fun r => call (Report_data (Mem.report cfg) cls r)) l e
  = (inr (JReport cls <$> l), e).
Proof.
  destruct e as [w lg].
  set (f := fun r : ReportDocument => call (Report_data (Mem.report cfg) cls r)).
  induction l as [|r l IH]; [done|].
  rewrite for_each_cons.
  change (f r (mkEnv w lg)) with (inr (JReport cls r) : exn + Json, mkEnv w lg).
  cbv beta iota. by rewrite IH.
Qed.

Lemma paginate_queryset_sublist {A} p (queryset : list A) request page :
  Pagination.paginate_queryset p queryset request = inr (Some page) ->
  Pagination.object_list page `sublist_of` queryset.
Proof.
  unfold Pagination.paginate_queryset.
  destruct (Pagination.get_page_size p request) as [n|]; [|done].
  destruct (n =? 0)%Z; [done|]. destruct (int _) as [x|number]; [done|].
  destruct (number <? 1)%Z; [done|]. destruct (_ <? number)%Z; [done|].
  intros ?; simplify_eq. simpl. etrans; [apply sublist_take|apply sublist_drop].
Qed.

Lemma get_paginated_response_items request data cls (e : Env Mem.World) r e' :
  ReportView.get_paginated_response (Mem.report cfg) request data cls e = (inr r, e') ->
  forall results, items_of r = Some results ->
    exists page, results = JReport cls <$> page /\ page `sublist_of` data.
Proof.
  unfold ReportView.get_paginated_response, ReportView.pagination_class, bind, lift.
  destruct (Pagination.paginate_queryset ReportPagination data request)
    as [x|[page|]] eqn:Hp; [done| |].
  - apply paginate_queryset_sublist in Hp. rewrite for_each_data. unfold ret.
    intros ? results; simplify_eq. unfold items_of. simpl.
    intros ?; simplify_eq. eauto.
  - rewrite for_each_data. unfold ret. intros ? results; simplify_eq.
    unfold items_of. simpl. intros ?; simplify_eq. eauto.
Qed.

Lemma list_all_items request patient cls (e : Env Mem.World) r e' :
  (let* reports := call (Report_objects_order_by (Mem.report cfg) patient) in
   ReportView.get_paginated_response (Mem.report cfg) request reports cls) e
  = (inr r, e') ->
  forall results, items_of r = Some results ->
    exists pid page,
      int patient = inr pid /\
      results = JReport cls <$> page /\
      page `sublist_of` Mem.newest_first pid (Mem.reports (db e)).
Proof.
  unfold bind at 1. unfold call. simpl.
  destruct (int patient) as [x|pid]; [done|].
  intros H results Hitems.
  destruct (get_paginated_response_items _ _ _ _ _ _ H results Hitems)
    as (page & -> & Hsub).
  eauto.
Qed.

End ListFacts.

Section PageFacts.
Context (cfg : Mem.Config).

(** A valid page number selects a slice of the queryset. *)
Lemma paginate_queryset_slice {A} (queryset : list A) request n k :
  Pagination.get_page_size ReportPagination request = Some n ->
  let num_pages := Pagination.paginator_num_pages (length queryset) n in
  int (Pagination.get_page_number ReportPagination request num_pages) = inr k ->
  (1 <= k <= num_pages)%Z ->
  Pagination.paginate_queryset ReportPagination queryset request
  = inr (Some (Pagination.mkPage
                 (take (Z.to_nat n) (drop (Z.to_nat ((k - 1) * n)) queryset))
                 k (length queryset) num_pages)).
Proof.
  intros Hn num_pages Hk Hrange.
  destruct (get_page_size_bounds request) as (n' & Hn' & Hbound & _).
  rewrite Hn in Hn'. simplify_eq.
  unfold Pagination.paginate_queryset. rewrite Hn.
  destruct (Z.eqb_spec n' 0); [lia|]. fold num_pages. rewrite Hk.
  destruct (Z.ltb_spec k 1); [lia|]. destruct (Z.ltb_spec num_pages k); [lia|].
  do 3 f_equal.
  set (b := ((k - 1) * n')%Z). assert (0 <= b)%Z by (unfold b; nia).
  destruct (Z.leb_spec (Z.of_nat (length queryset)) (b + n')).
  - rewrite !take_ge; [done|rewrite length_drop; lia..].
  - f_equal. lia.
Qed.


Lemma order_by_call patient pid (e : Env Mem.World) :
  int patient = inr pid ->
  call (Report_objects_order_by (Mem.report cfg) patient) e
  = (inr (Mem.newest_first pid (Mem.reports (db e))), e).
Proof. intros H. unfold call. simpl. rewrite H. by destruct e. Qed.

(** Both list methods, once the paginator has accepted the page. *)
Lemma list_response request patient pid (e : Env Mem.World) page :
  int patient = inr pid ->
  Pagination.paginate_queryset ReportPagination
    (Mem.newest_first pid (Mem.reports (db e))) request = inr (Some page) ->
  ReportView.get (Mem.report cfg) request patient None e
  = (Pagination.get_paginated_response page
       (JReport ReportSerializer <$> Pagination.object_list page), e) /\
  QuickReportView.get (Mem.report cfg) request patient e
  = (Pagination.get_paginated_response page
       (JReport QuickReportSerializer <$> Pagination.object_list page), e).
Proof.
  intros H Hp. split.
  - unfold ReportView.get. apply respond_returns.
    unfold ReportView.get_try, ReportView.get_paginated_response,
      ReportView.pagination_class, bind, lift.
    rewrite (order_by_call patient pid e H), Hp, for_each_data. done.
  - unfold QuickReportView.get. apply respond_returns.
    unfold QuickReportView.get_try, QuickReportView.pagination_class, bind, lift.
    rewrite (order_by_call patient pid e H), Hp, for_each_data. done.
Qed.

End PageFacts.

(** ** The list is every report of the patient, newest first *)

Section NewestFirstFacts.
Context (cfg : Mem.Config).

(** What [order_by('-report_id')] returns is the list of the patient's
    reports, newest first. *)
Lemma newest_first_complete pid l :
  NoDup (report_key <$> l) -> newest_first_of pid l (Mem.newest_first pid l).
Proof.
  intros Hnd. split; [|split].
  - unfold Mem.newest_first.
    rewrite merge_sort_Permutation, filter_docs, stored_docs. done.
  - apply Forall_forall. intros d Hd. apply newest_first_elem in Hd. tauto.
  - by apply newest_first_decreasing.
Qed.

Lemma NoDup_fmap_eq {A B} (f : A -> B) (l : list A) x y :
  NoDup (f <$> l) -> x ∈ l -> y ∈ l -> f x = f y -> x = y.
Proof.
  intros Hnd [i Hi]%list_elem_of_lookup [j Hj]%list_elem_of_lookup Hf.
  assert (i = j) as ->; [|congruence].
  apply (NoDup_lookup (f <$> l) i j (f x)); [done|..];
    rewrite list_lookup_fmap; [by rewrite Hi|rewrite Hj; simpl; congruence].
Qed.

Lemma fmap_eq_inj {A B} (f : A -> B) (a b : list A) :
  (forall x y, x ∈ a -> y ∈ b -> f x = f y -> x = y) ->
  f <$> a = f <$> b -> a = b.
Proof.
  revert b. induction a as [|x a IH]; intros [|y b] Hinj Heq; simplify_eq/=; [done|].
  f_equal.
  - apply Hinj; [left|left|done].
  - apply IH; [|done]. intros x' y' Hx Hy. apply Hinj; by right.
Qed.

#[local] Instance newer_antisymm : AntiSymm (=) (fun a b : Z => (b < a)%Z).
Proof. intros a b ??. lia. Qed.

(** There is one such list only. *)
Lemma newest_first_unique pid l a b :
  NoDup (report_key <$> l) ->
  newest_first_of pid l a -> newest_first_of pid l b -> a = b.
Proof.
  intros Hnd (Pa & Fa & Sa) (Pb & Fb & Sb).
  rewrite Forall_forall in Fa. rewrite Forall_forall in Fb.
  assert (forall (c : list ReportDocument) d,
             doc <$> c ≡ₚ filter (fun r => paziente_id r = pid) l ->
             d ∈ c -> doc d ∈ l /\ paziente_id (doc d) = pid) as Hin.
  { intros c d Pc Hd.
    assert (doc d ∈ doc <$> c) as Hd' by (by apply list_elem_of_fmap_2).
    rewrite Pc in Hd'. by apply list_elem_of_filter in Hd' as [? ?]. }
  apply (fmap_eq_inj doc).
  - intros x y Hx Hy Hxy.
    destruct (Fa x Hx) as (i & Hpi & Hi). destruct (Fb y Hy) as (j & Hpj & Hj).
    assert (i = j) as ->.
    { apply (NoDup_lookup l i j (doc x)); [|done|congruence].
      by eapply NoDup_fmap_1. }
    destruct x, y. simpl in *. congruence.
  - apply (fmap_eq_inj report_id).
    + intros x y [u [-> Hu]]%list_elem_of_fmap [v [-> Hv]]%list_elem_of_fmap Hxy.
      destruct (Hin a u Pa Hu) as [Hul Hup]. destruct (Hin b v Pb Hv) as [Hvl Hvp].
      apply (NoDup_fmap_eq report_key l); [done..|].
      unfold report_key. congruence.
    + rewrite <- !(list_fmap_compose doc report_id).
      apply (StronglySorted_unique (fun x y : Z => (y < x)%Z)); [done..|].
      rewrite !(list_fmap_compose doc report_id). by rewrite Pa, Pb.
Qed.

(** A page that the paginator returns is the page that the request names. *)
Lemma paginate_queryset_page {A} (queryset : list A) request page :
  Pagination.paginate_queryset ReportPagination queryset request = inr (Some page) ->
  exists n k,
    Pagination.get_page_size ReportPagination request = Some n /\
    (1 <= n)%Z /\
    int (Pagination.get_page_number ReportPagination request
           (Pagination.paginator_num_pages (length queryset) n)) = inr k /\
    (1 <= k <= Pagination.paginator_num_pages (length queryset) n)%Z /\
    Pagination.object_list page = page_items n k queryset.
Proof.
  intros Hp. destruct (get_page_size_bounds request) as (n & Hn & Hbound & _).
  exists n. generalize Hp. unfold Pagination.paginate_queryset at 1. rewrite Hn.
  destruct (Z.eqb_spec n 0); [lia|].
  destruct (int _) as [x|k] eqn:Hk; [done|].
  destruct (Z.ltb_spec k 1); [done|].
  destruct (Z.ltb_spec (Pagination.paginator_num_pages (length queryset) n) k); [done|].
  intros _. exists k.
  rewrite (paginate_queryset_slice queryset request n k Hn Hk) in Hp by lia.
  simplify_eq. split_and!; [done|lia|done|lia|lia|done].
Qed.

Lemma get_paginated_response_page request data cls (e : Env Mem.World) r e' :
  ReportView.get_paginated_response (Mem.report cfg) request data cls e = (inr r, e') ->
  forall results, items_of r = Some results ->
    exists n k,
      Pagination.get_page_size ReportPagination request = Some n /\
      (1 <= n)%Z /\
      int (Pagination.get_page_number ReportPagination request
             (Pagination.paginator_num_pages (length data) n)) = inr k /\
      (1 <= k <= Pagination.paginator_num_pages (length data) n)%Z /\
      results = JReport cls <$> page_items n k data.
Proof.
  unfold ReportView.get_paginated_response, ReportView.pagination_class, bind, lift.
  pose proof (paginate_queryset_bounds data request) as Hb.
  destruct (Pagination.paginate_queryset ReportPagination data request)
    as [x|[page|]] eqn:Hp; [done| |done].
  apply paginate_queryset_page in Hp as (n & k & Hn & Hn1 & Hk & Hr & Hpage).
  rewrite for_each_data. unfold ret. intros ? results; simplify_eq.
  unfold items_of. simpl. intros ?; simplify_eq. rewrite Hpage.
  exists n, k. done.
Qed.

Lemma list_all_page request patient cls (e : Env Mem.World) r e' :
  (let* reports := call (Report_objects_order_by (Mem.report cfg) patient) in
   ReportView.get_paginated_response (Mem.report cfg) request reports cls) e
  = (inr r, e') ->
  forall results, items_of r = Some results ->
    exists pid n k,
      int patient = inr pid /\
      Pagination.get_page_size ReportPagination request = Some n /\
      (1 <= n)%Z /\
      int (Pagination.get_page_number ReportPagination request
             (Pagination.paginator_num_pages
                (length (Mem.newest_first pid (Mem.reports (db e)))) n)) = inr k /\
      (1 <= k <= Pagination.paginator_num_pages
                   (length (Mem.newest_first pid (Mem.reports (db e)))) n)%Z /\
      results = JReport cls <$> page_items n k (Mem.newest_first pid (Mem.reports (db e))).
Proof.
  unfold bind at 1. unfold call. simpl.
  destruct (int patient) as [x|pid]; [done|].
  intros H results Hitems.
  destruct (get_paginated_response_page _ _ _ _ _ _ H results Hitems)
    as (n & k & ?). exists pid, n, k. done.
Qed.

(** A report identifier that is absent or false asks for the list. *)
Lemma get_without_report request patient report (e : Env Mem.World) :
  from_option truthy false report = false ->
  ReportView.get (Mem.report cfg) request patient report e
  = ReportView.get (Mem.report cfg) request patient None e.
Proof.
  intros H. destruct report as [rid|]; [|done]. simpl in H.
  unfold ReportView.get, ReportView.get_try. by rewrite H.
Qed.

End NewestFirstFacts.

(** C9: in a report collection where no two reports share a key, the list of
    the report endpoint and the list of the quick-report endpoint are the
    reports of the requested patient, newest first.  Take the list [all] that
    holds every stored report of the patient once, in strictly decreasing order
    of report identifier: there is such a list, and
    - the items of every list response are the serialized forms of one page of
      [all], the page that the request names, in the order of [all];
    - a request for the list (no report identifier, or a false one) that names
      an existing page of [all] is answered with status 200 and with that
      page, by both endpoints; without a [page] parameter the page is the
      first one, which starts at the newest report. *)
Theorem lists_are_newest_first (cfg : Mem.Config) request patient report
  (e : Env Mem.World) :
  NoDup (report_key <$> Mem.reports (db e)) ->
  (forall pid, exists all, newest_first_of pid (Mem.reports (db e)) all) /\
  (forall cls results,
     cls = ReportSerializer /\
     items_of (fst (ReportView.get (Mem.report cfg) request patient report e))
     = Some results \/
     cls = QuickReportSerializer /\
     items_of (fst (QuickReportView.get (Mem.report cfg) request patient e))
     = Some results ->
     exists pid all n k,
       int patient = inr pid /\
       newest_first_of pid (Mem.reports (db e)) all /\
       Pagination.get_page_size ReportPagination request = Some n /\
       (1 <= n)%Z /\
       int (Pagination.get_page_number ReportPagination request
              (Pagination.paginator_num_pages (length all) n)) = inr k /\
       (1 <= k <= Pagination.paginator_num_pages (length all) n)%Z /\
       results = JReport cls <$> page_items n k all) /\
  (forall pid all n k,
     int patient = inr pid ->
     newest_first_of pid (Mem.reports (db e)) all ->
     from_option truthy false report = false ->
     Pagination.get_page_size ReportPagination request = Some n ->
     int (Pagination.get_page_number ReportPagination request
            (Pagination.paginator_num_pages (length all) n)) = inr k ->
     (1 <= k <= Pagination.paginator_num_pages (length all) n)%Z ->
     let response := fst (ReportView.get (Mem.report cfg) request patient report e) in
     let quick := fst (QuickReportView.get (Mem.report cfg) request patient e) in
     status response = HTTP_200_OK /\
     items_of response = Some (JReport ReportSerializer <$> page_items n k all) /\
     status quick = HTTP_200_OK /\
     items_of quick = Some (JReport QuickReportSerializer <$> page_items n k all) /\
     (query_params request !! "page" = None -> k = 1%Z /\
        forall d, d ∈ all -> exists newest rest,
          page_items n k all = newest :: rest /\
          (report_id (doc d) <= report_id (doc newest))%Z)).
Proof.
  intros Hnd. split; [|split].
  - intros pid. eexists. by apply newest_first_complete.
  - intros cls results H.
    assert (exists r e',
               (let* reports := call (Report_objects_order_by (Mem.report cfg) patient) in
                ReportView.get_paginated_response (Mem.report cfg) request reports cls) e
               = (inr r, e') /\ items_of r = Some results) as (r & e' & Hr & Hitems).
    { destruct H as [[-> H]|[-> H]].
      - unfold ReportView.get, respond in H.
        destruct (ReportView.get_try (Mem.report cfg) request patient report e)
          as [[x|r] e'] eqn:E.
        + by destruct x.
        + exists r, e'. split; [|done]. unfold ReportView.get_try in E.
          destruct report as [rid|]; [destruct (truthy rid)|]; [|done..].
          unfold bind in E. destruct (call _ e) as [[x|[d|]] e1]; [done| |done].
          destruct (call _ e1) as [[x|j] e2]; [done|].
          unfold ret in E. by simplify_eq.
      - unfold QuickReportView.get, respond in H.
        destruct (QuickReportView.get_try (Mem.report cfg) request patient e)
          as [[x|r] e'] eqn:E; [done|].
        exists r, e'. by rewrite quick_report_get_try in E. }
    destruct (list_all_page cfg _ _ _ _ _ _ Hr results Hitems)
      as (pid & n & k & Hp & Hn & Hn1 & Hk & Hrange & ->).
    exists pid, (Mem.newest_first pid (Mem.reports (db e))), n, k.
    split_and!; try done; [by apply newest_first_complete|lia|lia].
  - intros pid all n k Hp Hall Hlist Hn Hk Hrange response quick.
    assert (all = Mem.newest_first pid (Mem.reports (db e))) as Heq.
    { apply (newest_first_unique pid (Mem.reports (db e))); [done..|].
      by apply newest_first_complete. }
    subst response quick. rewrite (get_without_report cfg _ _ _ _ Hlist).
    pose proof (paginate_queryset_slice all request n k Hn Hk Hrange) as Hslice.
    rewrite Heq in Hslice.
    destruct (list_response cfg request patient pid e _ Hp Hslice) as [-> ->].
    rewrite <- Heq. split_and!; [done..|].
    intros Hpage.
    assert (k = 1%Z) as ->.
    { unfold Pagination.get_page_number in Hk. simpl in Hk. rewrite Hpage in Hk.
      simpl in Hk. congruence. }
    split; [done|]. intros d Hd.
    assert (1 <= n)%Z as Hn1.
    { destruct (get_page_size_bounds request) as (n' & Hn' & Hbound & _).
      rewrite Hn in Hn'. injection Hn' as ->. lia. }
    clear Heq Hslice Hk Hrange.
    destruct Hall as (_ & _ & Hs). unfold page_items. simpl.
    destruct all as [|newest all]; [by inversion Hd|].
    destruct (Z.to_nat n) as [|m] eqn:Hm; [lia|].
    exists newest, (take m all). split; [done|].
    apply elem_of_cons in Hd as [->|Hd]; [lia|].
    unfold strictly_decreasing in Hs. rewrite fmap_cons in Hs.
    apply StronglySorted_inv in Hs as [_ Hs]. rewrite Forall_forall in Hs.
    assert (report_id (doc d) < report_id (doc newest))%Z; [|lia].
    apply Hs. apply list_elem_of_fmap. by exists d.
Qed.

Lemma lists_are_newest_first_witness :
  let reports := Mem.reports (db Sample.three_reports) in
  let newest := [mkDocument (Some 2) (Sample.report7 3);
                 mkDocument (Some 1) (Sample.report7 2);
                 mkDocument (Some 0) (Sample.report7 1)] in
  NoDup (report_key <$> reports) /\
  newest_first_of 7 reports newest /\
  (forall all, newest_first_of 7 reports all -> all = newest) /\
  status (fst (ReportView.get (Mem.report Sample.cfg) Sample.request (AStr "7") None
                 Sample.three_reports)) = HTTP_200_OK /\
  items_of (fst (ReportView.get (Mem.report Sample.cfg) Sample.request (AStr "7") None
                   Sample.three_reports))
  = Some (JReport ReportSerializer <$> newest) /\
  status (fst (QuickReportView.get (Mem.report Sample.cfg) Sample.request (AStr "7")
                 Sample.three_reports)) = HTTP_200_OK /\
  items_of (fst (QuickReportView.get (Mem.report Sample.cfg) Sample.request (AStr "7")
                   Sample.three_reports))
  = Some (JReport QuickReportSerializer <$> newest).
Proof.
  intros reports newest.
  assert (NoDup (report_key <$> reports)) as Hnd.
  { apply (bool_decide_unpack (NoDup _)). vm_compute. exact I. }
  assert (newest_first_of 7 reports newest) as Hnewest.
  { change newest with (Mem.newest_first 7 reports).
    by apply newest_first_complete. }
  destruct (lists_are_newest_first Sample.cfg Sample.request (AStr "7") None
              Sample.three_reports Hnd) as (_ & _ & H).
  destruct (H 7%Z newest 10%Z 1%Z) as (H1 & H2 & H3 & H4 & _).
  - reflexivity.
  - exact Hnewest.
  - reflexivity.
  - reflexivity.
  - reflexivity.
  - vm_compute. split; discriminate.
  - split_and!; [exact Hnd|exact Hnewest| |exact H1|exact H2|exact H3|exact H4].
    intros all Hall. by apply (newest_first_unique 7 reports).
Defined.

Example report_list_order :
  items_of (fst (ReportView.get (Mem.report Sample.cfg) Sample.request (AStr "7") None
                   Sample.three_reports))
  = Some [JReport ReportSerializer (mkDocument (Some 2) (Sample.report7 3));
          JReport ReportSerializer (mkDocument (Some 1) (Sample.report7 2));
          JReport ReportSerializer (mkDocument (Some 0) (Sample.report7 1))].
Proof. reflexivity. Qed.

Example quick_report_list_order :
  items_of (fst (QuickReportView.get (Mem.report Sample.cfg) Sample.request (AStr "7")
                   Sample.three_reports))
  = Some [JReport QuickReportSerializer (mkDocument (Some 2) (Sample.report7 3));
          JReport QuickReportSerializer (mkDocument (Some 1) (Sample.report7 2));
          JReport QuickReportSerializer (mkDocument (Some 0) (Sample.report7 1))].
Proof. reflexivity. Qed.

(** ** The invariant holds in every reachable database *)

Section Reachability.
Context (cfg : Mem.Config).

Lemma put_keeps_reports request patient (e : Env Mem.World) :
  Mem.reports (db (snd (BasePatientView.put (Mem.patient cfg) request patient e)))
  = Mem.reports (db e).
Proof.
  destruct (int patient) as [x|pid] eqn:H.
  - destruct (put_rejects_invalid_id (Mem.patient cfg) request patient e) as [m' ->];
      [|done].
    intros (pid & Hpid & _). congruence.
  - destruct (decide (0 < pid)%Z) as [Hpos|Hneg].
    + destruct (Mem.first (Mem.of_patient pid) (Mem.records (db e))) as [i|] eqn:Hf.
      * destruct (Mem.validate cfg (Some i)
                    (<["paziente_id" := VInt pid]> (data request))) as [errors|vd] eqn:Hv.
        -- unfold BasePatientView.put, respond, BasePatientView.put_try, bind.
           rewrite (validate_paziente_id_ok patient pid e H Hpos).
           rewrite (get_object_valid (Mem.patient cfg) (AInt pid) pid e eq_refl Hpos).
           simpl. by rewrite Hf, Hv.
        -- destruct (first_Some _ _ _ Hf) as (k & Hpk & _).
           by rewrite (put_update_outcome cfg request patient pid e i vd k H Hpos Hf Hpk Hv).
      * destruct (Mem.validate cfg None
                    (<["paziente_id" := VInt pid]> (data request))) as [errors|vd] eqn:Hv.
        -- unfold BasePatientView.put, respond, BasePatientView.put_try, bind.
           rewrite (validate_paziente_id_ok patient pid e H Hpos).
           rewrite (get_object_valid (Mem.patient cfg) (AInt pid) pid e eq_refl Hpos).
           simpl. by rewrite Hf, Hv.
        -- by rewrite (put_create_outcome cfg request patient pid e vd H Hpos Hf Hv).
    + destruct (put_rejects_invalid_id (Mem.patient cfg) request patient e) as [m' ->];
        [|done].
      intros (q & Hq & Hqpos). rewrite H in Hq. simplify_eq. done.
Qed.

Lemma delete_reports request patient report (e : Env Mem.World) :
  exists l, Mem.reports (db (snd (ReportView.delete (Mem.report cfg) request patient
                                    report e))) = l /\
            l `sublist_of` Mem.reports (db e).
Proof.
  eexists. split; [done|].
  unfold ReportView.delete, respond, ReportView.delete_try, bind, call. simpl.
  destruct (int patient) as [x|pid]; [by destruct x|].
  destruct (int report) as [x|rid]; [by destruct x|].
  destruct (Mem.first _ _) as [[[i|] r]|]; simpl; [apply sublist_delete|done..].
Qed.

Lemma reachable_reports_wf w : reachable cfg w -> reports_wf (Mem.reports w).
Proof.
  induction 1 as [|request patient e _ IH|request patient e _ IH
                  |request patient report e _ IH].
  - split; simpl; constructor.
  - by rewrite put_keeps_reports.
  - by apply post_keeps_reports_wf.
  - destruct (delete_reports request patient report e) as (l & -> & Hsub).
    destruct IH as [Hnd Hpos]. split.
    + eapply sublist_NoDup; [exact Hnd|]. by apply fmap_sublist.
    + apply Forall_forall. intros x Hx. rewrite Forall_forall in Hpos.
      apply Hpos. by eapply elem_of_sublist.
Qed.

End Reachability.

(** * Further properties of the view methods *)

(** ** BasePatientView.validate_paziente_id and get_object *)

Lemma validate_paziente_id_value {W} (paziente_id : PathArg) (e : Env W) :
  BasePatientView.validate_paziente_id paziente_id e =
  match int paziente_id with
  | inr pid =>
      if (pid <=? 0)%Z
      then (inl (ValidationError "paziente_id must be positive"), e)
      else (inr pid, e)
  | inl _ => (inl (ValidationError "paziente_id must be a valid integer"), e)
  end.
Proof.
  unfold BasePatientView.validate_paziente_id, try_except, bind, lift, raise, ret.
  destruct paziente_id as [z|s]; simpl.
  - by destruct (z <=? 0)%Z.
  - destruct (int_of_string s) as [z|]; [|done]. by destruct (z <=? 0)%Z.
Qed.

(** X1: [validate_paziente_id] returns exactly the positive integers that [int]
    accepts; everything else is a [ValidationError], never the [ValueError] of
    [int] itself; the state is not touched; and the result validates again to
    itself, which is what [put] relies on when it hands its validated
    identifier to [get_object]. *)
Theorem validate_paziente_id_characterised {W} (paziente_id : PathArg) (e : Env W) :
  (forall pid e',
      BasePatientView.validate_paziente_id paziente_id e = (inr pid, e') <->
      int paziente_id = inr pid /\ (0 < pid)%Z /\ e' = e) /\
  (forall x e',
      BasePatientView.validate_paziente_id paziente_id e = (inl x, e') ->
      e' = e /\ ~ valid_patient_id paziente_id /\
      (x = ValidationError "paziente_id must be positive" \/
       x = ValidationError "paziente_id must be a valid integer")) /\
  (forall pid e',
      BasePatientView.validate_paziente_id paziente_id e = (inr pid, e') ->
      BasePatientView.validate_paziente_id (AInt pid) e' = (inr pid, e')).
Proof.
  rewrite validate_paziente_id_value. split_and!.
  - intros pid e'. destruct (int paziente_id) as [y|z].
    { split; [done|]. by intros (? & _). }
    destruct (Z.leb_spec z 0); split; intros ?; destruct_and?; simplify_eq;
      try done; lia.
  - intros x e'. destruct (int paziente_id) as [y|z] eqn:E.
    + intros ?; simplify_eq. split_and!; [done| |by right].
      intros (pid & Hpid & _). congruence.
    + destruct (Z.leb_spec z 0); intros ?; simplify_eq. split_and!; [done| |by left].
      unfold valid_patient_id. rewrite E. intros (pid & Hpid & Hpos).
      simplify_eq. lia.
  - intros pid e'. destruct (int paziente_id) as [y|z]; [done|].
    destruct (Z.leb_spec z 0) as [|Hpos]; intros ?; simplify_eq.
    rewrite validate_paziente_id_value. simpl.
    by destruct (Z.leb_spec pid 0); [lia|].
Qed.



(** ** BasePatientView.put *)

(** X3: a body that the serializer refuses is answered with the serializer's
    errors and status 400, and nothing is built or saved: the database is the
    one the query and the validation left, the log is untouched. *)
Theorem put_invalid_body_saves_nothing {W} (self : PatientBackend W) request
  paziente_id pid (e : Env W) instance w1 errors w2 :
  int paziente_id = inr pid -> (0 < pid)%Z ->
  objects_first self pid (db e) = (inr instance, w1) ->
  is_valid self instance (<["paziente_id" := VInt pid]> (data request)) w1
  = (inr (inl errors), w2) ->
  BasePatientView.put self request paziente_id e
  = (mkResponse (ErrorsBody errors) HTTP_400_BAD_REQUEST, mkEnv w2 (log e)).
Proof.
  intros H Hpos Hq Hv. unfold BasePatientView.put.
  apply respond_returns. unfold BasePatientView.put_try, bind.
  rewrite (validate_paziente_id_ok paziente_id pid e H Hpos).
  rewrite (get_object_valid self (AInt pid) pid e eq_refl Hpos), Hq.
  unfold call. simpl. by rewrite Hv.
Qed.

Lemma put_invalid_body_saves_nothing_witness :
  BasePatientView.put (Mem.patient Cases.strict) Cases.nameless (AStr "7")
    Cases.with_older_record
  = (mkResponse (ErrorsBody (<["nome" := VStr "This field is required."]> ∅))
       HTTP_400_BAD_REQUEST,
     Cases.with_older_record).
Proof.
  apply (put_invalid_body_saves_nothing (Mem.patient Cases.strict) Cases.nameless
           (AStr "7") 7 Cases.with_older_record
           (Some (mkDocument (Some 0) Cases.older_record7))
           (db Cases.with_older_record)
           (<["nome" := VStr "This field is required."]> ∅)
           (db Cases.with_older_record)).
  - reflexivity.
  - lia.
  - reflexivity.
  - reflexivity.
Defined.

Section PutFacts.
Context (cfg : Mem.Config).

Lemma first_snoc {F} (P : F -> Prop) `{forall x, Decision (P x)} (l : list F) x :
  Mem.first P l = None -> P x ->
  Mem.first P (l ++ [x]) = Some (mkDocument (Some (length l)) x).
Proof.
  intros Hnone HP. unfold Mem.first in *.
  destruct (list_find P l) as [[i f]|] eqn:E; [done|].
  rewrite (list_find_app_r P l [x] E). simpl.
  by rewrite decide_True.
Qed.

Lemma first_insert {F} (P : F -> Prop) `{forall x, Decision (P x)} (l : list F) d y :
  Mem.first P l = Some d -> P y ->
  exists i, pk d = Some i /\ Mem.first P (<[i := y]> l) = Some (mkDocument (Some i) y).
Proof.
  unfold Mem.first. destruct (list_find P l) as [[i f]|] eqn:E; [|done].
  intros ? HP; simplify_eq. exists i. split; [done|].
  apply list_find_Some in E as (Hi & _ & Hleast).
  assert (list_find P (<[i := y]> l) = Some (i, y)) as ->; [|done].
  apply list_find_Some. split_and!; [|done|].
  - apply list_lookup_insert_eq. by eapply lookup_lt_Some.
  - intros j z Hj Hlt. rewrite list_lookup_insert_ne in Hj by lia. by eapply Hleast.
Qed.

Lemma filter_insert_irrelevant {F} (P : F -> Prop) `{forall x, Decision (P x)}
  (l : list F) i x y :
  l !! i = Some x -> ~ P x -> ~ P y -> filter P (<[i := y]> l) = filter P l.
Proof.
  revert i. induction l as [|a l IH]; intros [|i] Hi Hx Hy; simplify_eq/=.
  - by rewrite !filter_cons_False.
  - rewrite !filter_cons. by rewrite (IH i Hi Hx Hy).
Qed.

Lemma filter_insert_length {F} (P : F -> Prop) `{forall x, Decision (P x)}
  (l : list F) i x y :
  l !! i = Some x -> P x -> P y ->
  length (filter P (<[i := y]> l)) = length (filter P l).
Proof.
  revert i. induction l as [|a l IH]; intros [|i] Hi Hx Hy; simplify_eq/=.
  - by rewrite !filter_cons_True.
  - rewrite !filter_cons. destruct (decide (P a)); simpl; by rewrite (IH i Hi Hx Hy).
Qed.

Lemma filter_none {F} (P : F -> Prop) `{forall x, Decision (P x)} (l : list F) :
  Forall (fun x => ~ P x) l -> filter P l = [].
Proof.
  induction 1 as [|a l Ha _ IH]; [done|]. by rewrite filter_cons_False.
Qed.

Lemma filter_some {F} (P : F -> Prop) `{forall x, Decision (P x)} (l : list F) i x :
  l !! i = Some x -> P x -> 0 < length (filter P l).
Proof.
  intros Hi HP.
  assert (x ∈ filter P l) as Hin.
  { apply list_elem_of_filter. split; [done|]. by eapply list_elem_of_lookup_2. }
  destruct (filter P l); [by apply elem_of_nil in Hin|simpl; lia].
Qed.

Lemma of_patient_other pid q (d : Data) :
  Mem.of_patient pid d -> q <> pid -> ~ Mem.of_patient q d.
Proof. unfold Mem.of_patient. intros -> Hq ?. by simplify_eq. Qed.

(** GET on the in-memory collection for a valid identifier. *)
Lemma get_outcome request paziente_id pid (e : Env Mem.World) :
  int paziente_id = inr pid -> (0 < pid)%Z ->
  BasePatientView.get (Mem.patient cfg) request paziente_id e =
  match Mem.first (Mem.of_patient pid) (Mem.records (db e)) with
  | Some d => (mkResponse (DataBody (JRecord (Some d))) HTTP_200_OK, e)
  | None =>
      (mkResponse
         (ErrorBody (Mem.name cfg +:+ " not found for patient " +:+ fmt paziente_id))
         HTTP_400_BAD_REQUEST,
       e)
  end.
Proof.
  intros H Hpos. unfold BasePatientView.get, respond, BasePatientView.get_try, bind.
  rewrite (get_object_valid (Mem.patient cfg) paziente_id pid e H Hpos). simpl.
  destruct (Mem.first _ _) as [d|]; simpl; unfold raise, answer; by destruct e.
Qed.

End PutFacts.

(** X4: PUT on an existing record is a merge, not a replacement: the record keeps
    its position, every validated field is overwritten, and every field that
    the validated data do not carry keeps its stored value. *)
Theorem put_update_merges_fields (cfg : Mem.Config) request paziente_id pid
  (e : Env Mem.World) instance validated_data :
  int paziente_id = inr pid -> (0 < pid)%Z ->
  Mem.first (Mem.of_patient pid) (Mem.records (db e)) = Some instance ->
  Mem.validate cfg (Some instance) (<["paziente_id" := VInt pid]> (data request))
  = inr validated_data ->
  let e' := snd (BasePatientView.put (Mem.patient cfg) request paziente_id e) in
  length (Mem.records (db e')) = length (Mem.records (db e)) /\
  exists i stored,
    pk instance = Some i /\
    Mem.records (db e') !! i = Some stored /\
    forall key,
      stored !! key = match validated_data !! key with
                      | Some v => Some v
                      | None => doc instance !! key
                      end.
Proof.
  intros H Hpos Hf Hv. destruct (first_Some _ _ _ Hf) as (i & Hpk & Hi & _).
  rewrite (put_update_outcome cfg request paziente_id pid e instance
             validated_data i H Hpos Hf Hpk Hv).
  simpl. split; [apply length_insert|].
  exists i, (validated_data ∪ doc instance). split_and!; [done| |].
  - apply list_lookup_insert_eq. by eapply lookup_lt_Some.
  - intros key. rewrite lookup_union.
    by destruct (validated_data !! key), (doc instance !! key).
Qed.

Lemma put_update_merges_fields_witness :
  let e' := snd (BasePatientView.put (Mem.patient Sample.cfg) Sample.request (AStr "7")
                   Cases.with_older_record) in
  length (Mem.records (db e')) = length (Mem.records (db Cases.with_older_record)) /\
  exists i stored,
    pk (mkDocument (Some 0) Cases.older_record7) = Some i /\
    Mem.records (db e') !! i = Some stored /\
    forall key,
      stored !! key = match Sample.record7 !! key with
                      | Some v => Some v
                      | None => Cases.older_record7 !! key
                      end.
Proof.
  apply (put_update_merges_fields Sample.cfg Sample.request (AStr "7") 7
           Cases.with_older_record (mkDocument (Some 0) Cases.older_record7)
           Sample.record7).
  - reflexivity.
  - lia.
  - reflexivity.
  - reflexivity.
Defined.

Example put_update_keeps_other_fields :
  (fun d => (d !! "eta", d !! "nome", d !! "paziente_id")) <$>
  Mem.records (db (snd (BasePatientView.put (Mem.patient Sample.cfg) Sample.request
                          (AStr "7") Cases.with_older_record)))
  = [(Some (VInt 40), Some (VStr "Rossi"), Some (VInt 7))].
Proof. reflexivity. Qed.

(** X5: PUT then GET: when the validated data carry the patient identifier, a GET
    for the same identifier right after a successful PUT answers 200 with the
    very representation that the PUT returned, and changes nothing. *)
Theorem put_then_get_returns_the_record (cfg : Mem.Config) request request'
  paziente_id pid (e : Env Mem.World) found validated_data :
  int paziente_id = inr pid -> (0 < pid)%Z ->
  Mem.first (Mem.of_patient pid) (Mem.records (db e)) = found ->
  Mem.validate cfg found (<["paziente_id" := VInt pid]> (data request))
  = inr validated_data ->
  validated_data !! "paziente_id" = Some (VInt pid) ->
  let out := BasePatientView.put (Mem.patient cfg) request paziente_id e in
  BasePatientView.get (Mem.patient cfg) request' paziente_id (snd out)
  = (mkResponse (body (fst out)) HTTP_200_OK, snd out).
Proof.
  intros H Hpos Hf Hv Hvd out. unfold out.
  rewrite (get_outcome cfg request' paziente_id pid _ H Hpos).
  destruct found as [instance|].
  - destruct (first_Some _ _ _ Hf) as (i & Hpk & Hi & Hp).
    rewrite (put_update_outcome cfg request paziente_id pid e instance
               validated_data i H Hpos Hf Hpk Hv).
    simpl.
    destruct (first_insert (Mem.of_patient pid) (Mem.records (db e)) instance
                (validated_data ∪ doc instance) Hf) as (j & Hj & Hfirst).
    { by apply lookup_union_Some_l. }
    rewrite Hpk in Hj. simplify_eq. by rewrite Hfirst.
  - rewrite (put_create_outcome cfg request paziente_id pid e validated_data
               H Hpos Hf Hv).
    simpl. by rewrite (first_snoc (Mem.of_patient pid) _ validated_data Hf Hvd).
Qed.

Lemma put_then_get_returns_the_record_witness :
  let out := BasePatientView.put (Mem.patient Sample.cfg) Sample.request (AStr "7")
               Sample.empty in
  BasePatientView.get (Mem.patient Sample.cfg) Cases.nameless (AStr "7") (snd out)
  = (mkResponse (body (fst out)) HTTP_200_OK, snd out).
Proof.
  apply (put_then_get_returns_the_record Sample.cfg Sample.request Cases.nameless
           (AStr "7") 7 Sample.empty None Sample.record7).
  - reflexivity.
  - lia.
  - reflexivity.
  - reflexivity.
  - reflexivity.
Defined.

(** X6: PUT writes for one patient only: when the validated data carry the patient
    identifier, the records of every other patient are the same before and
    after, and the patient of the request has one record if there was none and
    as many as before otherwise.  A collection with at most one record per
    patient stays so. *)
Theorem put_keeps_one_record_per_patient (cfg : Mem.Config) request paziente_id pid
  (e : Env Mem.World) found validated_data :
  int paziente_id = inr pid -> (0 < pid)%Z ->
  Mem.first (Mem.of_patient pid) (Mem.records (db e)) = found ->
  Mem.validate cfg found (<["paziente_id" := VInt pid]> (data request))
  = inr validated_data ->
  validated_data !! "paziente_id" = Some (VInt pid) ->
  let e' := snd (BasePatientView.put (Mem.patient cfg) request paziente_id e) in
  (forall q, q <> pid ->
     filter (Mem.of_patient q) (Mem.records (db e'))
     = filter (Mem.of_patient q) (Mem.records (db e))) /\
  length (filter (Mem.of_patient pid) (Mem.records (db e')))
  = Nat.max 1 (length (filter (Mem.of_patient pid) (Mem.records (db e)))).
Proof.
  intros H Hpos Hf Hv Hvd. destruct found as [instance|].
  - destruct (first_Some _ _ _ Hf) as (i & Hpk & Hi & Hp).
    rewrite (put_update_outcome cfg request paziente_id pid e instance
               validated_data i H Hpos Hf Hpk Hv).
    simpl.
    assert (Mem.of_patient pid (validated_data ∪ doc instance)) as Hnew.
    { by apply lookup_union_Some_l. }
    split.
    + intros q Hq. apply (filter_insert_irrelevant _ _ i (doc instance)); [done|..];
        by eapply of_patient_other.
    + rewrite (filter_insert_length _ _ i (doc instance)) by done.
      pose proof (filter_some (Mem.of_patient pid) _ i _ Hi Hp). lia.
  - rewrite (put_create_outcome cfg request paziente_id pid e validated_data
               H Hpos Hf Hv).
    simpl. apply first_None in Hf. split.
    + intros q Hq. rewrite filter_app, filter_cons_False, filter_nil.
      * by rewrite (right_id_L [] (++)).
      * by eapply of_patient_other.
    + rewrite filter_app, (filter_none _ _ Hf). simpl.
      by rewrite filter_cons_True.
Qed.

Lemma put_keeps_one_record_per_patient_witness :
  let e' := snd (BasePatientView.put (Mem.patient Sample.cfg) Sample.request (AStr "7")
                   Cases.with_older_record) in
  (forall q, q <> 7%Z ->
     filter (Mem.of_patient q) (Mem.records (db e'))
     = filter (Mem.of_patient q) (Mem.records (db Cases.with_older_record))) /\
  length (filter (Mem.of_patient 7) (Mem.records (db e')))
  = Nat.max 1 (length (filter (Mem.of_patient 7)
                         (Mem.records (db Cases.with_older_record)))).
Proof.
  apply (put_keeps_one_record_per_patient Sample.cfg Sample.request (AStr "7") 7
           Cases.with_older_record (Some (mkDocument (Some 0) Cases.older_record7))
           Sample.record7).
  - reflexivity.
  - lia.
  - reflexivity.
  - reflexivity.
  - reflexivity.
Defined.

(** ** BasePatientView.check_exists *)

Lemma first_None_filter {F} (P : F -> Prop) `{forall x, Decision (P x)} (l : list F) :
  Mem.first P l = None <-> filter P l = [].
Proof.
  rewrite first_None. split; [apply filter_none|].
  intros Hnil. apply Forall_forall. intros x Hx HP.
  by apply (filter_nil_not_elem_of P l x Hnil HP).
Qed.

(** X7: [check_exists] counts where [get_object] takes the first match, and the
    two agree: for a positive identifier, [check_exists] returns true exactly
    when GET answers 200, without changing the state. *)
Theorem check_exists_agrees_with_get (cfg : Mem.Config) request pid
  (e : Env Mem.World) :
  (0 < pid)%Z ->
  exists b,
    BasePatientView.check_exists (Mem.patient cfg) pid e = (inr b, e) /\
    (b = true <->
     status (fst (BasePatientView.get (Mem.patient cfg) request (AInt pid) e))
     = HTTP_200_OK).
Proof.
  intros Hpos. eexists. split.
  - unfold BasePatientView.check_exists, bind, call, ret. simpl. by destruct e.
  - rewrite (get_outcome cfg request (AInt pid) pid e eq_refl Hpos).
    destruct (Mem.first _ _) as [d|] eqn:Hf; simpl.
    + split; [done|]. intros _. apply Nat.ltb_lt.
      destruct (filter _ _) eqn:Hnil; [|simpl; lia].
      apply first_None_filter in Hnil. congruence.
    + apply first_None_filter in Hf. rewrite Hf. simpl. split; [done|].
      by compute.
Qed.

Lemma check_exists_agrees_with_get_witness :
  exists b,
    BasePatientView.check_exists (Mem.patient Sample.cfg) 7 Sample.three_reports
    = (inr b, Sample.three_reports) /\
    (b = true <->
     status (fst (BasePatientView.get (Mem.patient Sample.cfg) Sample.request (AInt 7)
                    Sample.three_reports))
     = HTTP_200_OK).
Proof.
  apply (check_exists_agrees_with_get Sample.cfg Sample.request 7 Sample.three_reports).
  lia.
Defined.

Example check_exists_true_and_false :
  fst (BasePatientView.check_exists (Mem.patient Sample.cfg) 7 Sample.three_reports)
  = inr true /\
  fst (BasePatientView.check_exists (Mem.patient Sample.cfg) 8 Sample.three_reports)
  = inr false.
Proof. split; reflexivity. Qed.

(** ** ReportView.post *)

Section PostFacts.
Context (cfg : Mem.Config).

(** The references of a report after the loop over the latest records: a
    section with a record refers to it, every other section keeps what the
    report had. *)
Lemma assign_references_refs report (latest : list (string * option Instance)) field :
  NoDup (fst <$> latest) ->
  section_refs (doc (assign_references report latest)) !! field
  = match (list_to_map latest : gmap string (option Instance)) !! field with
    | Some (Some record) => Some record
    | _ => section_refs (doc report) !! field
    end.
Proof.
  unfold assign_references. revert report.
  induction latest as [|[k o] l IH]; intros report Hnd; simpl; [done|].
  apply NoDup_cons in Hnd as [Hk Hnd]. rewrite IH by done.
  destruct (decide (k = field)) as [->|Hne].
  - rewrite lookup_insert_eq.
    rewrite (proj1 (not_elem_of_list_to_map l field) Hk).
    destruct o as [record|]; simpl; [|done]. by rewrite lookup_insert_eq.
  - rewrite lookup_insert_ne by done.
    destruct (list_to_map l !! field) as [[record|]|]; [done| |].
    + destruct o as [record|]; simpl; [|done]. by rewrite lookup_insert_ne.
    + destruct o as [record|]; simpl; [|done]. by rewrite lookup_insert_ne.
Qed.

Lemma post_created request patient pid (e : Env Mem.World) :
  int patient = inr pid ->
  let draft := draft_report request pid (db e) in
  let latest := Mem.latest_records cfg (db e) draft in
  Exists (fun kv => is_Some (snd kv)) latest ->
  ReportView.post (Mem.report cfg) request patient e =
  (mkResponse
     (DataBody (JReport ReportSerializer
                  (mkDocument (Some (length (Mem.reports (db e))))
                     (doc (assign_references draft latest)))))
     HTTP_201_CREATED,
   mkEnv (Mem.mkWorld (Mem.records (db e))
            (Mem.reports (db e) ++ [doc (assign_references draft latest)]))
     (log e)).
Proof.
  intros H draft latest Hex%any_values_true.
  rewrite (post_outcome cfg request patient pid e H). fold draft. fold latest.
  by rewrite Hex.
Qed.

Lemma filter_delete_irrelevant {F} (P : F -> Prop) `{forall x, Decision (P x)}
  (l : list F) i x :
  l !! i = Some x -> ~ P x -> filter P (delete i l) = filter P l.
Proof.
  revert i. induction l as [|a l IH]; intros [|i] Hi Hx; simplify_eq/=.
  - by rewrite filter_cons_False.
  - rewrite !filter_cons. by rewrite (IH i Hi Hx).
Qed.

End PostFacts.

(** X8: the report that POST stores: it belongs to the patient of the URL, its
    operator is the [operatore_id] of the body (none when the body has no such
    key), and it refers to exactly the sections whose latest-record lookup
    found a record. *)
Theorem post_stores_found_sections (cfg : Mem.Config) request patient pid
  (e : Env Mem.World) :
  int patient = inr pid ->
  let latest := Mem.latest_records cfg (db e) (draft_report request pid (db e)) in
  Exists (fun kv => is_Some (snd kv)) latest ->
  NoDup (fst <$> latest) ->
  let e' := snd (ReportView.post (Mem.report cfg) request patient e) in
  exists r,
    Mem.reports (db e') = Mem.reports (db e) ++ [r] /\
    paziente_id r = pid /\
    operatore_id r = data request !! "operatore_id" /\
    forall field record,
      section_refs r !! field = Some record <-> (field, Some record) ∈ latest.
Proof.
  intros H latest Hex Hnd e'. unfold e'.
  rewrite (post_created cfg request patient pid e H Hex). simpl.
  eexists. split; [done|].
  destruct (assign_references_fields (draft_report request pid (db e)) latest)
    as (_ & Hp & Ho & _).
  fold latest. rewrite Hp, Ho. split_and!; [done..|].
  intros field record. rewrite (assign_references_refs _ latest field Hnd). simpl.
  rewrite lookup_empty.
  rewrite (elem_of_list_to_map (M := gmap string) latest field (Some record) Hnd).
  destruct (list_to_map latest !! field) as [[r|]|]; split; intros ?; by simplify_eq.
Qed.

Lemma post_stores_found_sections_witness :
  let e' := snd (ReportView.post (Mem.report Cases.two_sections) Sample.request
                   (AStr "7") Sample.three_reports) in
  exists r,
    Mem.reports (db e') = Mem.reports (db Sample.three_reports) ++ [r] /\
    paziente_id r = 7%Z /\
    operatore_id r = data Sample.request !! "operatore_id" /\
    forall field record,
      section_refs r !! field = Some record <->
      (field, Some record)
      ∈ Mem.latest_records Cases.two_sections (db Sample.three_reports)
          (draft_report Sample.request 7 (db Sample.three_reports)).
Proof.
  apply (post_stores_found_sections Cases.two_sections Sample.request (AStr "7") 7
           Sample.three_reports).
  - reflexivity.
  - apply Exists_cons_hd. vm_compute. eauto.
  - apply (bool_decide_unpack (NoDup _)). vm_compute. exact I.
Defined.

Example post_refers_to_the_found_section_only :
  (fun r => (section_refs r !! "anagrafica", section_refs r !! "terapia")) <$>
  last (Mem.reports (db (snd (ReportView.post (Mem.report Cases.two_sections)
                                 Sample.request (AStr "7") Sample.three_reports))))
  = Some (Some (mkDocument (Some 0) Sample.record7), None).
Proof. reflexivity. Qed.

(** X9: POST then GET: the report that a successful POST returns is found by a GET
    for its identifier right afterwards, with the same representation and
    status 200; the GET changes nothing. *)
Theorem post_then_get_returns_the_report (cfg : Mem.Config) request request'
  patient pid (e : Env Mem.World) :
  int patient = inr pid ->
  Exists (fun kv => is_Some (snd kv))
    (Mem.latest_records cfg (db e) (draft_report request pid (db e))) ->
  let out := ReportView.post (Mem.report cfg) request patient e in
  exists r,
    fst out = mkResponse (DataBody (JReport ReportSerializer r)) HTTP_201_CREATED /\
    ReportView.get (Mem.report cfg) request' patient
      (Some (AInt (report_id (doc r)))) (snd out)
    = (mkResponse (DataBody (JReport ReportSerializer r)) HTTP_200_OK, snd out).
Proof.
  intros H Hex out. unfold out.
  rewrite (post_created cfg request patient pid e H Hex). simpl.
  eexists. split; [done|].
  destruct (assign_references_fields (draft_report request pid (db e))
              (Mem.latest_records cfg (db e) (draft_report request pid (db e))))
    as (_ & Hp & _ & Hid).
  simpl in Hp, Hid.
  pose proof (next_report_id_positive pid (Mem.reports (db e))) as Hpos.
  rewrite (get_one_outcome cfg request' patient (AInt _) pid _ _ H eq_refl).
  2:{ simpl. rewrite Hid. by destruct (Z.eqb_spec (Mem.next_report_id pid
                                                   (Mem.reports (db e))) 0); [lia|]. }
  simpl. rewrite first_snoc; [done| |by rewrite Hid].
  apply first_None. apply Forall_forall. intros old Hold [Hq Hr].
  pose proof (next_report_id_above pid _ old Hold Hq). rewrite Hid in Hr. lia.
Qed.

Lemma post_then_get_returns_the_report_witness :
  let out := ReportView.post (Mem.report Sample.cfg) Sample.request (AStr "7")
               Sample.three_reports in
  exists r,
    fst out = mkResponse (DataBody (JReport ReportSerializer r)) HTTP_201_CREATED /\
    ReportView.get (Mem.report Sample.cfg) Cases.nameless (AStr "7")
      (Some (AInt (report_id (doc r)))) (snd out)
    = (mkResponse (DataBody (JReport ReportSerializer r)) HTTP_200_OK, snd out).
Proof.
  apply (post_then_get_returns_the_report Sample.cfg Sample.request Cases.nameless
           (AStr "7") 7 Sample.three_reports).
  - reflexivity.
  - apply Exists_cons_hd. vm_compute. eauto.
Defined.

(** X10: POST and DELETE for one patient leave every other patient's reports, and
    all records, as they were. *)
Theorem report_writes_touch_one_patient (cfg : Mem.Config) request patient report pid
  (e : Env Mem.World) q :
  int patient = inr pid -> q <> pid ->
  let posted := db (snd (ReportView.post (Mem.report cfg) request patient e)) in
  let deleted := db (snd (ReportView.delete (Mem.report cfg) request patient report e)) in
  filter (Mem.report_of q) (Mem.reports posted)
  = filter (Mem.report_of q) (Mem.reports (db e)) /\
  Mem.records posted = Mem.records (db e) /\
  filter (Mem.report_of q) (Mem.reports deleted)
  = filter (Mem.report_of q) (Mem.reports (db e)) /\
  Mem.records deleted = Mem.records (db e).
Proof.
  intros H Hq posted deleted. unfold posted, deleted. split_and!.
  - rewrite (post_outcome cfg request patient pid e H).
    destruct (any_values _); [|done]. simpl.
    rewrite filter_app, filter_cons_False, filter_nil.
    + by rewrite (right_id_L [] (++)).
    + unfold Mem.report_of.
      destruct (assign_references_fields (draft_report request pid (db e))
                  (Mem.latest_records cfg (db e) (draft_report request pid (db e))))
        as (_ & -> & _). simpl. congruence.
  - rewrite (post_outcome cfg request patient pid e H). by destruct (any_values _).
  - destruct (int report) as [x|rid] eqn:Hr.
    + unfold ReportView.delete, respond, ReportView.delete_try, bind, call. simpl.
      rewrite H, Hr. by destruct x.
    + rewrite (delete_outcome cfg request patient report pid rid e H Hr).
      destruct (list_find _ _) as [[i r]|] eqn:Hfind; [|done]. simpl.
      apply list_find_Some in Hfind as (Hi & [Hp _] & _).
      apply (filter_delete_irrelevant _ _ i r Hi). unfold Mem.report_of. congruence.
  - destruct (int report) as [x|rid] eqn:Hr.
    + unfold ReportView.delete, respond, ReportView.delete_try, bind, call. simpl.
      rewrite H, Hr. by destruct x.
    + rewrite (delete_outcome cfg request patient report pid rid e H Hr).
      by destruct (list_find _ _) as [[i r]|].
Qed.

Lemma report_writes_touch_one_patient_witness :
  let posted := db (snd (ReportView.post (Mem.report Sample.cfg) Sample.request
                           (AStr "7") Cases.two_patients)) in
  let deleted := db (snd (ReportView.delete (Mem.report Sample.cfg) Sample.request
                            (AStr "7") (AInt 1) Cases.two_patients)) in
  filter (Mem.report_of 8) (Mem.reports posted)
  = filter (Mem.report_of 8) (Mem.reports (db Cases.two_patients)) /\
  Mem.records posted = Mem.records (db Cases.two_patients) /\
  filter (Mem.report_of 8) (Mem.reports deleted)
  = filter (Mem.report_of 8) (Mem.reports (db Cases.two_patients)) /\
  Mem.records deleted = Mem.records (db Cases.two_patients).
Proof.
  apply (report_writes_touch_one_patient Sample.cfg Sample.request (AStr "7") (AInt 1)
           7 Cases.two_patients 8).
  - reflexivity.
  - lia.
Defined.

Example delete_for_one_patient :
  (fun r => (paziente_id r, report_id r)) <$>
  Mem.reports (db (snd (ReportView.delete (Mem.report Sample.cfg) Sample.request
                          (AStr "7") (AInt 1) Cases.two_patients)))
  = [(8, 1); (7, 2); (8, 2)]%Z.
Proof. reflexivity. Qed.

(** ** The list responses *)



Example page_zero_and_page_word :
  status (fst (ReportView.get (Mem.report Sample.cfg) (Cases.page "0") (AStr "7") None
                 Sample.three_reports)) = HTTP_404_NOT_FOUND /\
  status (fst (ReportView.get (Mem.report Sample.cfg) (Cases.page "two") (AStr "7") None
                 Sample.three_reports)) = HTTP_404_NOT_FOUND /\
  status (fst (ReportView.get (Mem.report Sample.cfg) (Cases.page "last") (AStr "7") None
                 Sample.three_reports)) = HTTP_200_OK.
Proof. split_and!; reflexivity. Qed.



Example second_page_of_twelve :
  (fun r => report_id (doc r)) <$>
  take 10 (drop 10 (Mem.newest_first 7 (Mem.reports (db Sample.twelve_reports))))
  = [2; 1]%Z.
Proof. reflexivity. Qed.



(** ** Status codes *)

Section StatusFacts.
Context {W : Type} (patient : PatientBackend W) (report : ReportBackend W).

Lemma get_paginated_response_status request data cls (e : Env W) r e' :
  ReportView.get_paginated_response report request data cls e = (inr r, e') ->
  status r = HTTP_200_OK.
Proof.
  unfold ReportView.get_paginated_response, bind, lift.
  destruct (Pagination.paginate_queryset _ _ _) as [x|[page|]]; [done| |].
  - destruct (for_each _ _ _) as [[x|d] e1]; [done|].
    unfold ret. by intros ?; simplify_eq.
  - destruct (for_each _ _ _) as [[x|d] e1]; [done|].
    unfold ret. by intros ?; simplify_eq.
Qed.

Lemma list_all_status request paziente_id cls (e : Env W) r e' :
  (let* reports := call (Report_objects_order_by report paziente_id) in
   ReportView.get_paginated_response report request reports cls) e = (inr r, e') ->
  status r = HTTP_200_OK.
Proof.
  unfold bind at 1. destruct (call _ e) as [[x|reports] e1]; [done|].
  apply get_paginated_response_status.
Qed.

Lemma record_get_try_status request paziente_id (e : Env W) r e' :
  BasePatientView.get_try patient request paziente_id e = (inr r, e') ->
  status r = HTTP_200_OK.
Proof.
  unfold BasePatientView.get_try, bind.
  destruct (BasePatientView.get_object _ _ _) as [[x|instance] e1]; [done|].
  destruct (negb (is_true instance)); [done|].
  destruct (call _ e1) as [[x|d] e2]; [done|].
  unfold ret. by intros ?; simplify_eq.
Qed.

Lemma record_put_try_status request paziente_id (e : Env W) r e' :
  BasePatientView.put_try patient request paziente_id e = (inr r, e') ->
  status r = HTTP_200_OK \/ status r = HTTP_400_BAD_REQUEST.
Proof.
  unfold BasePatientView.put_try, bind.
  destruct (BasePatientView.validate_paziente_id _ _) as [[?|pid] e1]; [done|].
  destruct (BasePatientView.get_object _ _ _) as [[?|instance] e2]; [done|].
  destruct (call _ e2) as [[?|[errors|vd]] e3]; [done| |].
  - unfold ret. intros ?; simplify_eq. by right.
  - destruct (BasePatientView.create_or_update _ _ _ _) as [[?|i] e4] eqn:Hcu; [done|].
    apply create_or_update_is_true in Hcu.
    destruct (call _ e4) as [[?|d] e5]; [done|].
    unfold ret. intros ?; simplify_eq. simpl. rewrite Hcu. by left.
Qed.

Lemma report_get_try_status request paziente_id report_id (e : Env W) r e' :
  ReportView.get_try report request paziente_id report_id e = (inr r, e') ->
  status r = HTTP_200_OK.
Proof.
  unfold ReportView.get_try.
  destruct report_id as [rid|]; [destruct (truthy rid)|];
    [|apply list_all_status..].
  unfold bind. destruct (call _ e) as [[x|[d|]] e1]; [done| |done].
  destruct (call _ e1) as [[x|j] e2]; [done|].
  unfold ret. by intros ?; simplify_eq.
Qed.

Lemma report_post_try_status request paziente_id (e : Env W) r e' :
  ReportView.post_try report request paziente_id e = (inr r, e') ->
  status r = HTTP_201_CREATED.
Proof.
  unfold ReportView.post_try, bind.
  destruct (call _ e) as [[x|next] e1]; [done|].
  destruct (call _ e1) as [[x|rep] e2]; [done|].
  destruct (call _ e2) as [[x|latest] e3]; [done|].
  destruct (negb (any_values latest)); [done|].
  destruct (call _ e3) as [[x|saved] e4]; [done|].
  destruct (call _ e4) as [[x|d] e5]; [done|].
  unfold ret. by intros ?; simplify_eq.
Qed.

Lemma report_delete_try_status request paziente_id report_id (e : Env W) r e' :
  ReportView.delete_try report request paziente_id report_id e = (inr r, e') ->
  status r = HTTP_204_NO_CONTENT.
Proof.
  unfold ReportView.delete_try, bind.
  destruct (call _ e) as [[x|[d|]] e1]; [done| |done].
  destruct (call _ e1) as [[x|u] e2]; [done|].
  unfold ret. by intros ?; simplify_eq.
Qed.

End StatusFacts.

(** X14: each method answers with one of three status codes at most, whatever the
    request and whatever the back end does: the record GET and PUT with 200,
    400 or 500 (never 404, never 201); the report GET with 200, 404 or 500;
    POST with 201, 400 or 500; DELETE with 204, 404 or 500; the quick-report
    GET with 200 or 500 only. *)
Theorem status_codes_of_the_methods {W} (patient : PatientBackend W)
  (report : ReportBackend W) request paziente_id report_id opt_report_id (e : Env W) :
  let code (out : Response * Env W) := status (fst out) in
  (code (BasePatientView.get patient request paziente_id e)
   ∈ [HTTP_200_OK; HTTP_400_BAD_REQUEST; HTTP_500_INTERNAL_SERVER_ERROR]) /\
  (code (BasePatientView.put patient request paziente_id e)
   ∈ [HTTP_200_OK; HTTP_400_BAD_REQUEST; HTTP_500_INTERNAL_SERVER_ERROR]) /\
  (code (ReportView.get report request paziente_id opt_report_id e)
   ∈ [HTTP_200_OK; HTTP_404_NOT_FOUND; HTTP_500_INTERNAL_SERVER_ERROR]) /\
  (code (ReportView.post report request paziente_id e)
   ∈ [HTTP_201_CREATED; HTTP_400_BAD_REQUEST; HTTP_500_INTERNAL_SERVER_ERROR]) /\
  (code (ReportView.delete report request paziente_id report_id e)
   ∈ [HTTP_204_NO_CONTENT; HTTP_404_NOT_FOUND; HTTP_500_INTERNAL_SERVER_ERROR]) /\
  (code (QuickReportView.get report request paziente_id e)
   ∈ [HTTP_200_OK; HTTP_500_INTERNAL_SERVER_ERROR]).
Proof.
  intros code. unfold code. split_and!.
  - unfold BasePatientView.get, respond.
    destruct (BasePatientView.get_try _ _ _ _) as [[x|r] e'] eqn:E.
    + destruct x; simpl; set_solver.
    + apply record_get_try_status in E. simpl. rewrite E. set_solver.
  - unfold BasePatientView.put, respond.
    destruct (BasePatientView.put_try _ _ _ _) as [[x|r] e'] eqn:E.
    + destruct x; simpl; set_solver.
    + apply record_put_try_status in E as [E|E]; simpl; rewrite E; set_solver.
  - unfold ReportView.get, respond.
    destruct (ReportView.get_try _ _ _ _ _) as [[x|r] e'] eqn:E.
    + destruct x; simpl; set_solver.
    + apply report_get_try_status in E. simpl. rewrite E. set_solver.
  - unfold ReportView.post, respond.
    destruct (ReportView.post_try _ _ _ _) as [[x|r] e'] eqn:E.
    + destruct x; simpl; set_solver.
    + apply report_post_try_status in E. simpl. rewrite E. set_solver.
  - unfold ReportView.delete, respond.
    destruct (ReportView.delete_try _ _ _ _ _) as [[x|r] e'] eqn:E.
    + destruct x; simpl; set_solver.
    + apply report_delete_try_status in E. simpl. rewrite E. set_solver.
  - unfold QuickReportView.get, respond.
    destruct (QuickReportView.get_try _ _ _ _) as [[x|r] e'] eqn:E.
    + simpl. set_solver.
    + rewrite quick_report_get_try in E. apply list_all_status in E.
      simpl. rewrite E. set_solver.
Qed.

(** ** The GET methods only read *)

Section ReadOnly.
Context {W : Type}.

Lemma call_reads {A} (op : Op W A) (e : Env W) :
  snd (op (db e)) = db e -> db (snd (call op e)) = db e.
Proof. unfold call. by destruct (op (db e)) as [r w]. Qed.

Lemma for_each_reads {A B} (f : A -> Op W B) l (e : Env W) :
  (forall a w, snd (f a w) = w) ->
  db (snd (for_each (fun a => call (f a)) l e)) = db e.
Proof.
  intros Hf. revert e. induction l as [|a l IH]; intros e; [done|].
  rewrite for_each_cons.
  pose proof (call_reads (f a) e (Hf a (db e))) as Ha.
  destruct (call (f a) e) as [[x|y] e1]; [done|].
  specialize (IH e1). destruct (for_each _ l e1) as [[x|ys] e2]; simpl in *; congruence.
Qed.

Lemma get_paginated_response_reads (report : ReportBackend W) request data cls
  (e : Env W) :
  (forall c r w, snd (Report_data report c r w) = w) ->
  db (snd (ReportView.get_paginated_response report request data cls e)) = db e.
Proof.
  intros Hd. unfold ReportView.get_paginated_response, bind, lift.
  destruct (Pagination.paginate_queryset _ _ _) as [x|[page|]]; [done| |].
  - pose proof (for_each_reads (Report_data report cls) (Pagination.object_list page) e
                  (Hd cls)) as Hf.
    by destruct (for_each _ _ e) as [[x|d] e1].
  - pose proof (for_each_reads (Report_data report cls) data e (Hd cls)) as Hf.
    by destruct (for_each _ _ e) as [[x|d] e1].
Qed.

Lemma list_all_reads (report : ReportBackend W) request paziente_id cls (e : Env W) :
  (forall p w, snd (Report_objects_order_by report p w) = w) ->
  (forall c r w, snd (Report_data report c r w) = w) ->
  db (snd ((let* reports := call (Report_objects_order_by report paziente_id) in
            ReportView.get_paginated_response report request reports cls) e)) = db e.
Proof.
  intros Ho Hd. unfold bind at 1.
  pose proof (call_reads (Report_objects_order_by report paziente_id) e (Ho _ _)) as Hc.
  destruct (call _ e) as [[x|reports] e1]; [done|].
  rewrite <- Hc. by apply get_paginated_response_reads.
Qed.

Lemma respond_keeps_db (m : M W Response) h (e : Env W) :
  db (snd (m e)) = db e ->
  (forall x e1, db (snd (h x e1)) = db e1) ->
  db (snd (respond m h e)) = db e.
Proof.
  intros Hm Hh. unfold respond. destruct (m e) as [[x|r] e1]; simpl in *; [|done].
  by rewrite Hh.
Qed.

End ReadOnly.

(** X15: the three GET methods call nothing but the read operations of the back
    end: whenever the queries and the serializers leave the database as it is,
    so does the GET, whatever [save], [delete] and the other operations of
    that back end would do, and also when the GET fails. *)
Theorem get_methods_only_read {W} (patient : PatientBackend W)
  (report : ReportBackend W) request paziente_id report_id (e : Env W) :
  (forall pid w, snd (objects_first patient pid w) = w) ->
  (forall i w, snd (serializer_data patient i w) = w) ->
  (forall p r w, snd (Report_objects_first report p r w) = w) ->
  (forall p w, snd (Report_objects_order_by report p w) = w) ->
  (forall c r w, snd (Report_data report c r w) = w) ->
  db (snd (BasePatientView.get patient request paziente_id e)) = db e /\
  db (snd (ReportView.get report request paziente_id report_id e)) = db e /\
  db (snd (QuickReportView.get report request paziente_id e)) = db e.
Proof.
  intros Hq Hs Hf Ho Hd. split_and!.
  - apply respond_keeps_db; [|by intros []].
    unfold BasePatientView.get_try, BasePatientView.get_object, bind.
    rewrite validate_paziente_id_value.
    destruct (int paziente_id) as [x|pid]; [done|].
    destruct (pid <=? 0)%Z; [done|]. unfold try_except.
    pose proof (call_reads (objects_first patient pid) e (Hq _ _)) as Hc.
    destruct (call _ e) as [[x|instance] e1]; simpl in *; [done|].
    destruct (negb (is_true instance)); [done|].
    pose proof (call_reads (serializer_data patient instance) e1 (Hs _ _)) as Hc1.
    destruct (call _ e1) as [[x|d] e2]; simpl in *; congruence.
  - apply respond_keeps_db; [|by intros []].
    unfold ReportView.get_try.
    destruct report_id as [rid|]; [destruct (truthy rid)|];
      [|by apply list_all_reads..].
    unfold bind.
    pose proof (call_reads (Report_objects_first report paziente_id rid) e (Hf _ _ _))
      as Hc.
    destruct (call _ e) as [[x|[r|]] e1]; simpl in *; [done| |done].
    pose proof (call_reads (Report_data report ReportSerializer r) e1 (Hd _ _ _)) as Hc1.
    destruct (call _ e1) as [[x|d] e2]; simpl in *; congruence.
  - apply respond_keeps_db; [|done].
    rewrite quick_report_get_try. by apply list_all_reads.
Qed.

Lemma get_methods_only_read_witness :
  db (snd (BasePatientView.get (Mem.patient Sample.cfg) Sample.request (AStr "7")
             Sample.three_reports)) = db Sample.three_reports /\
  db (snd (ReportView.get (Mem.report Sample.cfg) Sample.request (AStr "7")
             (Some (AInt 2)) Sample.three_reports)) = db Sample.three_reports /\
  db (snd (QuickReportView.get (Mem.report Sample.cfg) Sample.request (AStr "7")
             Sample.three_reports)) = db Sample.three_reports.
Proof.
  apply (get_methods_only_read (Mem.patient Sample.cfg) (Mem.report Sample.cfg)
           Sample.request (AStr "7") (Some (AInt 2)) Sample.three_reports).
  - reflexivity.
  - reflexivity.
  - intros p r w. simpl. by destruct (int p), (int r).
  - intros p w. simpl. by destruct (int p).
  - reflexivity.
Defined.

(** ** Reading single reports and fresh reports *)

(** X16: GET with a report identifier that is true ([if report_id:]) answers 200
    with the first stored report of that key when there is one, and 404 with
    the message of the [NotFound] otherwise; it changes nothing. *)
Theorem get_one_report_found_or_404 (cfg : Mem.Config) request patient report pid rid
  (e : Env Mem.World) :
  int patient = inr pid -> int report = inr rid -> truthy report = true ->
  let out := ReportView.get (Mem.report cfg) request patient (Some report) e in
  snd out = e /\
  ((exists r, r ∈ Mem.reports (db e) /\ report_key r = (pid, rid)) ->
   exists i r,
     Mem.reports (db e) !! i = Some r /\ report_key r = (pid, rid) /\
     (forall j old, Mem.reports (db e) !! j = Some old -> j < i ->
                    report_key old <> (pid, rid)) /\
     fst out = mkResponse (DataBody (JReport ReportSerializer (mkDocument (Some i) r)))
                 HTTP_200_OK) /\
  ((forall r, r ∈ Mem.reports (db e) -> report_key r <> (pid, rid)) ->
   fst out
   = mkResponse
       (ErrorBody ("Report " +:+ fmt report +:+ " not found for patient " +:+ fmt patient))
       HTTP_404_NOT_FOUND).
Proof.
  intros Hp Hr Ht out. unfold out.
  rewrite (get_one_outcome cfg request patient report pid rid e Hp Hr Ht).
  unfold Mem.first. destruct (list_find _ _) as [[i r]|] eqn:Hfind; simpl.
  - apply list_find_Some in Hfind as (Hi & Hat & Hleast).
    apply report_at_key in Hat. split_and!; [done| |].
    + intros _. exists i, r. split_and!; [done..| |done].
      intros j old Hj Hlt Hk. apply (Hleast j old Hj Hlt). by apply report_at_key.
    + intros Hno. destruct (Hno r); [by eapply list_elem_of_lookup_2|done].
  - apply list_find_None in Hfind. split_and!; [done| |done].
    intros (r & Hin & Hk). rewrite Forall_forall in Hfind.
    destruct (Hfind r Hin). by apply report_at_key.
Qed.

Lemma get_one_report_found_or_404_witness :
  let out := ReportView.get (Mem.report Sample.cfg) Sample.request (AStr "7")
               (Some (AStr "2")) Sample.three_reports in
  snd out = Sample.three_reports /\
  exists i r,
    Mem.reports (db Sample.three_reports) !! i = Some r /\
    report_key r = (7, 2)%Z /\
    (forall j old, Mem.reports (db Sample.three_reports) !! j = Some old -> j < i ->
                   report_key old <> (7, 2)%Z) /\
    fst out = mkResponse (DataBody (JReport ReportSerializer (mkDocument (Some i) r)))
                HTTP_200_OK.
Proof.
  destruct (get_one_report_found_or_404 Sample.cfg Sample.request (AStr "7") (AStr "2")
              7 2 Sample.three_reports eq_refl eq_refl eq_refl)
    as (Hsame & Hfound & _).
  split; [exact Hsame|]. apply Hfound.
  exists (Sample.report7 2). split; [|reflexivity].
  apply list_elem_of_lookup. by exists 1.
Defined.

Section FreshFacts.
Context (cfg : Mem.Config).

(** A report whose identifier is above all others of its patient comes first
    in the newest-first order. *)
Lemma newest_first_snoc pid (l : list ReportFields) rep :
  paziente_id rep = pid ->
  (forall old, old ∈ l -> paziente_id old = pid -> (report_id old < report_id rep)%Z) ->
  exists rest,
    Mem.newest_first pid (l ++ [rep]) = mkDocument (Some (length l)) rep :: rest.
Proof.
  intros Hp Habove.
  set (d := mkDocument (Some (length l)) rep).
  assert (d ∈ Mem.newest_first pid (l ++ [rep])) as Hd.
  { apply newest_first_elem. split; [|done]. exists (length l). split; [done|].
    simpl. by rewrite lookup_app_r, Nat.sub_diag. }
  assert (StronglySorted Mem.newer_first (Mem.newest_first pid (l ++ [rep]))) as Hs.
  { apply (@StronglySorted_merge_sort _ Mem.newer_first _
             newer_first_transitive newer_first_total). }
  destruct (Mem.newest_first pid (l ++ [rep])) as [|h t] eqn:E.
  { by apply elem_of_nil in Hd. }
  exists t. f_equal.
  assert (h ∈ Mem.newest_first pid (l ++ [rep])) as Hh.
  { rewrite E. apply list_elem_of_here. }
  apply newest_first_elem in Hh as ((i & Hpk & Hi) & Hhp).
  destruct (decide (i < length l)) as [Hlt|Hge].
  - rewrite lookup_app_l in Hi by done.
    pose proof (Habove (doc h) (list_elem_of_lookup_2 _ _ _ Hi) Hhp) as Hold.
    apply elem_of_cons in Hd as [Hd|Hd].
    + subst d. rewrite <- Hd in Hpk. simpl in Hpk. simplify_eq. lia.
    + apply StronglySorted_inv in Hs as [_ Hall].
      rewrite Forall_forall in Hall. specialize (Hall d Hd).
      unfold Mem.newer_first in Hall. simpl in Hall. lia.
  - rewrite lookup_app_r in Hi by lia.
    destruct (i - length l) as [|m] eqn:Hm; simpl in Hi; [|done].
    assert (i = length l) as -> by lia.
    destruct h as [k f]. simpl in *. by simplify_eq.
Qed.

End FreshFacts.

(** X17: POST then list: the report that a successful POST creates is the first
    item of the report list requested right afterwards without a [page]
    parameter. *)
Theorem new_report_heads_the_list (cfg : Mem.Config) request request' patient pid
  (e : Env Mem.World) :
  int patient = inr pid ->
  Exists (fun kv => is_Some (snd kv))
    (Mem.latest_records cfg (db e) (draft_report request pid (db e))) ->
  query_params request' !! "page" = None ->
  let out := ReportView.post (Mem.report cfg) request patient e in
  exists r rest,
    fst out = mkResponse (DataBody (JReport ReportSerializer r)) HTTP_201_CREATED /\
    items_of (fst (ReportView.get (Mem.report cfg) request' patient None (snd out)))
    = Some (JReport ReportSerializer r :: rest).
Proof.
  intros H Hex Hpage out. unfold out.
  rewrite (post_created cfg request patient pid e H Hex). simpl.
  set (rep := doc (assign_references (draft_report request pid (db e))
                     (Mem.latest_records cfg (db e) (draft_report request pid (db e))))).
  destruct (assign_references_fields (draft_report request pid (db e))
              (Mem.latest_records cfg (db e) (draft_report request pid (db e))))
    as (_ & Hp & _ & Hid).
  fold rep in Hp, Hid. simpl in Hp, Hid.
  destruct (newest_first_snoc pid (Mem.reports (db e)) rep Hp) as [rest Hall].
  { intros old Hold Hq. rewrite Hid. by apply next_report_id_above. }
  destruct (get_page_size_bounds request') as (n & Hn & Hbound & _).
  set (e1 := mkEnv (Mem.mkWorld (Mem.records (db e)) (Mem.reports (db e) ++ [rep])) (log e)).
  set (all := Mem.newest_first pid (Mem.reports (db e1))).
  assert (1 <= Pagination.paginator_num_pages (length all) n)%Z as Hnp.
  { unfold Pagination.paginator_num_pages. apply Z.div_le_lower_bound; lia. }
  pose proof (paginate_queryset_slice all request' n 1 Hn) as Hslice.
  simpl in Hslice. unfold Pagination.get_page_number in Hslice. simpl in Hslice.
  rewrite Hpage in Hslice. specialize (Hslice eq_refl (conj (Z.le_refl 1) Hnp)).
  destruct (list_response cfg request' patient pid e1 _ H Hslice) as [Hget _].
  exists (mkDocument (Some (length (Mem.reports (db e)))) rep),
    (JReport ReportSerializer <$> take (pred (Z.to_nat n)) rest).
  split; [done|]. fold e1. rewrite Hget.
  unfold items_of. simpl. unfold all, e1. simpl. rewrite Hall.
  replace ((1 - 1) * n)%Z with 0%Z by lia.
  destruct (Z.to_nat n) as [|m] eqn:Hm; [lia|]. done.
Qed.

Lemma new_report_heads_the_list_witness :
  let out := ReportView.post (Mem.report Sample.cfg) Sample.request (AStr "7")
               Sample.three_reports in
  exists r rest,
    fst out = mkResponse (DataBody (JReport ReportSerializer r)) HTTP_201_CREATED /\
    items_of (fst (ReportView.get (Mem.report Sample.cfg) Cases.nameless (AStr "7") None
                     (snd out)))
    = Some (JReport ReportSerializer r :: rest).
Proof.
  apply (new_report_heads_the_list Sample.cfg Sample.request Cases.nameless (AStr "7") 7
           Sample.three_reports).
  - reflexivity.
  - apply Exists_cons_hd. vm_compute. eauto.
  - reflexivity.
Defined.

(** ** Repeating a request *)

(** X18: PUT is idempotent when the serializer accepts the body with the same
    validated data whether or not a record exists, and those data carry the
    patient identifier: the second PUT gives the response of the first and
    leaves the state that the first produced. *)
Theorem put_twice_is_put_once (cfg : Mem.Config) request paziente_id pid
  (e : Env Mem.World) validated_data :
  int paziente_id = inr pid -> (0 < pid)%Z ->
  (forall instance,
      Mem.validate cfg instance (<["paziente_id" := VInt pid]> (data request))
      = inr validated_data) ->
  validated_data !! "paziente_id" = Some (VInt pid) ->
  let once := BasePatientView.put (Mem.patient cfg) request paziente_id e in
  BasePatientView.put (Mem.patient cfg) request paziente_id (snd once) = once.
Proof.
  intros H Hpos Hv Hvd once. unfold once.
  destruct (Mem.first (Mem.of_patient pid) (Mem.records (db e))) as [instance|] eqn:Hf.
  - destruct (first_Some _ _ _ Hf) as (i & Hpk & Hi & Hp).
    rewrite (put_update_outcome cfg request paziente_id pid e instance
               validated_data i H Hpos Hf Hpk (Hv _)).
    destruct (first_insert (Mem.of_patient pid) (Mem.records (db e)) instance
                (validated_data ∪ doc instance) Hf) as (j & Hj & Hfirst).
    { by apply lookup_union_Some_l. }
    rewrite Hpk in Hj. simplify_eq. cbn [snd].
    rewrite (put_update_outcome cfg request paziente_id pid
               (mkEnv (Mem.mkWorld (<[j := validated_data ∪ doc instance]>
                                      (Mem.records (db e))) (Mem.reports (db e)))
                  (log e))
               _ validated_data j H Hpos Hfirst eq_refl (Hv _)).
    simpl. rewrite list_insert_insert_eq.
    by rewrite (assoc_L (∪)), (idemp_L (∪)).
  - rewrite (put_create_outcome cfg request paziente_id pid e validated_data
               H Hpos Hf (Hv _)).
    pose proof (first_snoc (Mem.of_patient pid) _ validated_data Hf Hvd) as Hfirst.
    cbn [snd].
    rewrite (put_update_outcome cfg request paziente_id pid
               (mkEnv (Mem.mkWorld (Mem.records (db e) ++ [validated_data])
                         (Mem.reports (db e)))
                  (log e))
               _ validated_data
               (length (Mem.records (db e))) H Hpos Hfirst eq_refl (Hv _)).
    simpl. rewrite (idemp_L (∪)).
    rewrite insert_app_r_alt, Nat.sub_diag by lia. done.
Qed.

Lemma put_twice_is_put_once_witness :
  let once := BasePatientView.put (Mem.patient Sample.cfg) Sample.request (AStr "7")
                Cases.with_older_record in
  BasePatientView.put (Mem.patient Sample.cfg) Sample.request (AStr "7") (snd once)
  = once.
Proof.
  apply (put_twice_is_put_once Sample.cfg Sample.request (AStr "7") 7
           Cases.with_older_record Sample.record7).
  - reflexivity.
  - lia.
  - reflexivity.
  - reflexivity.
Defined.

(** X19: DELETE is not repeatable: in a collection without duplicate keys, the same
    DELETE right after a successful one answers 404 and changes nothing. *)
Theorem delete_twice_is_not_found (cfg : Mem.Config) request patient report pid rid
  (e : Env Mem.World) :
  int patient = inr pid -> int report = inr rid ->
  NoDup (report_key <$> Mem.reports (db e)) ->
  let once := ReportView.delete (Mem.report cfg) request patient report e in
  status (fst once) = HTTP_204_NO_CONTENT ->
  ReportView.delete (Mem.report cfg) request patient report (snd once)
  = (mkResponse
       (ErrorBody ("Report " +:+ fmt report +:+ " not found for patient " +:+ fmt patient))
       HTTP_404_NOT_FOUND,
     snd once).
Proof.
  intros Hp Hr Hnd once. unfold once.
  rewrite (delete_outcome cfg request patient report pid rid e Hp Hr).
  destruct (list_find _ _) as [[i r]|] eqn:Hfind; [|done]. intros _. simpl.
  apply list_find_Some in Hfind as (Hi & Hat%report_at_key & _).
  rewrite (delete_outcome cfg request patient report pid rid _ Hp Hr). simpl.
  assert (list_find (Mem.report_at pid rid) (delete i (Mem.reports (db e))) = None)
    as ->; [|done].
  apply list_find_None. eapply Forall_impl; [by apply (delete_key_gone _ i r)|].
  intros x Hx Hk%report_at_key. congruence.
Qed.

Lemma delete_twice_is_not_found_witness :
  let once := ReportView.delete (Mem.report Sample.cfg) Sample.request (AStr "7") (AInt 2)
                Sample.three_reports in
  ReportView.delete (Mem.report Sample.cfg) Sample.request (AStr "7") (AInt 2) (snd once)
  = (mkResponse (ErrorBody ("Report " +:+ fmt (AInt 2) +:+ " not found for patient "
                            +:+ fmt (AStr "7")))
       HTTP_404_NOT_FOUND,
     snd once).
Proof.
  apply (delete_twice_is_not_found Sample.cfg Sample.request (AStr "7") (AInt 2) 7 2
           Sample.three_reports).
  - reflexivity.
  - reflexivity.
  - apply (bool_decide_unpack (NoDup _)). vm_compute. exact I.
  - reflexivity.
Defined.

(** X20: DELETE then list: in a collection without duplicate keys, a report that
    was deleted is on no page of the patient's report list or quick-report
    list afterwards. *)
Theorem deleted_report_is_not_listed (cfg : Mem.Config) request request' patient report
  pid rid opt_report (e : Env Mem.World) results :
  int patient = inr pid -> int report = inr rid ->
  NoDup (report_key <$> Mem.reports (db e)) ->
  let once := ReportView.delete (Mem.report cfg) request patient report e in
  status (fst once) = HTTP_204_NO_CONTENT ->
  items_of (fst (ReportView.get (Mem.report cfg) request' patient opt_report (snd once)))
  = Some results \/
  items_of (fst (QuickReportView.get (Mem.report cfg) request' patient (snd once)))
  = Some results ->
  forall cls d, JReport cls d ∈ results -> report_id (doc d) <> rid.
Proof.
  intros Hp Hr Hnd once. unfold once.
  rewrite (delete_outcome cfg request patient report pid rid e Hp Hr).
  destruct (list_find _ _) as [[i r]|] eqn:Hfind; [|done]. intros _. simpl.
  apply list_find_Some in Hfind as (Hi & Hat%report_at_key & _).
  set (e1 := mkEnv (Mem.mkWorld (Mem.records (db e)) (delete i (Mem.reports (db e))))
               (log e)).
  intros Hitems cls d Hd.
  assert (exists c q page,
             int patient = inr q /\ results = JReport c <$> page /\
             page `sublist_of` Mem.newest_first q (Mem.reports (db e1)))
    as (c & q & page & Hq & -> & Hsub).
  { destruct Hitems as [Hit|Hit].
    - unfold ReportView.get, respond in Hit.
      destruct (ReportView.get_try (Mem.report cfg) request' patient opt_report e1)
        as [[x|resp] e'] eqn:E.
      + by destruct x.
      + exists ReportSerializer. unfold ReportView.get_try in E.
        destruct opt_report as [o|]; [destruct (truthy o)|].
        * unfold bind in E. destruct (call _ e1) as [[x|[f|]] e2]; [done| |done].
          destruct (call _ e2) as [[x|j] e3]; [done|].
          unfold ret in E. by simplify_eq.
        * by eapply list_all_items.
        * by eapply list_all_items.
    - unfold QuickReportView.get, respond in Hit.
      destruct (QuickReportView.get_try (Mem.report cfg) request' patient e1)
        as [[x|resp] e'] eqn:E; [done|].
      exists QuickReportSerializer. rewrite quick_report_get_try in E.
      by eapply list_all_items. }
  rewrite Hp in Hq. simplify_eq.
  apply list_elem_of_fmap in Hd as (d' & Heq & Hd'). simplify_eq.
  apply (elem_of_sublist _ _ _ Hd') in Hsub.
  apply newest_first_elem in Hsub as ((j & _ & Hj) & Hpat). simpl in Hj.
  pose proof (delete_key_gone _ i r Hnd Hi) as Hgone.
  rewrite Forall_forall in Hgone.
  specialize (Hgone (doc d') (list_elem_of_lookup_2 _ _ _ Hj)).
  intros Hrid. apply Hgone. rewrite Hat. unfold report_key. congruence.
Qed.

Lemma deleted_report_is_not_listed_witness :
  let once := ReportView.delete (Mem.report Sample.cfg) Sample.request (AStr "7") (AInt 2)
                Sample.three_reports in
  exists results,
    items_of (fst (ReportView.get (Mem.report Sample.cfg) Cases.nameless (AStr "7") None
                     (snd once))) = Some results /\
    length results = 2 /\
    forall cls d, JReport cls d ∈ results -> report_id (doc d) <> 2%Z.
Proof.
  eexists. split; [reflexivity|]. split; [reflexivity|].
  apply (deleted_report_is_not_listed Sample.cfg Sample.request Cases.nameless
           (AStr "7") (AInt 2) 7 2 None Sample.three_reports).
  - reflexivity.
  - reflexivity.
  - apply (bool_decide_unpack (NoDup _)). vm_compute. exact I.
  - reflexivity.
  - left. reflexivity.
Defined.
